(** * The JSON producer: message generators and delivery loop

    A shallow embedding of [producers/json_producer_badeniyan.py].

    The producer resolves its configuration from the environment, picks a
    message generator (a fixed custom message, or the entries of
    [data/buzz.json] replayed for ever), creates a Kafka producer and a topic
    and then sends one message per loop iteration until it is interrupted or
    a send fails.

    Everything outside the script is an oracle of a [world]: the environment
    variables, the state of the data file at each [open], the Kafka helpers
    of [utils.utils_producer], the outcome of each [producer.send] and the
    arrival of [KeyboardInterrupt].  The two functions of Python's standard
    library whose result the script branches on, [json.loads] and [int], are
    the fields of the class [PyLib].  Log lines are not modelled.

    A run is a trace of [event]s and, when the process ends, its exit
    status.  The delivery loop does not terminate by itself, so [main] takes
    fuel and answers [Running] with the trace so far when it runs out.

    Two runs of the script are outside [main].  A [KeyboardInterrupt]
    during start-up (lines 167-199 are outside the [try]) would end the
    process with status 130 and nothing closed: interrupts are delivered in
    the iterations of the loop only.  An exception of [json.loads] other
    than [JSONDecodeError] on CUSTOM_MESSAGE (a [RecursionError], the
    [ValueError] of an integer too long) would end the process at line 174
    with status 1: [json_loads] returns or refuses, and
    [get_custom_message_outcome] describes [get_custom_message] with that
    third outcome. *)

From Stdlib Require Import List ZArith String Ascii Bool Lia PeanoNat.
From Stdlib Require Import Floats.SpecFloat.
Import ListNotations.

Local Open Scope string_scope.
Local Open Scope Z_scope.
Local Open Scope list_scope.

Set Warnings "-register-all".

(* [length] is the length of a list throughout. *)
Abbreviation length := List.length.

(** ** Python values *)

(** The objects [json.loads] builds: [None], [bool], [int], [float], [str],
    [list] and [dict] (string keys, insertion order kept). *)
Inductive value : Type :=
| VNone
| VBool (b : bool)
| VInt (z : Z)
| VFloat (f : spec_float)
| VStr (s : string)
| VList (items : list value)
| VDict (entries : list (string * value)).

(** [bool(v)], the test of [if custom_message:] and [if custom_msg:]. *)
Definition truthy (v : value) : bool :=
  match v with
  | VNone => false
  | VBool b => b
  | VInt z => negb (z =? 0)
  | VFloat (S754_zero _) => false
  | VFloat _ => true
  | VStr s => negb (s =? "")%string
  | VList items => match items with [] => false | _ :: _ => true end
  | VDict entries => match entries with [] => false | _ :: _ => true end
  end.

(** [isinstance(v, list)] and [isinstance(v, dict)]. *)
Definition is_list (v : value) : bool :=
  match v with VList _ => true | _ => false end.


(** ** Exceptions *)

(** The exception classes the script tells apart.  The first four derive from
    [Exception]; [KeyboardInterrupt] and [SystemExit] derive from
    [BaseException] only, so [except Exception] lets them through.
    [OtherException] stands for every other subclass of [Exception]
    ([PermissionError], [IsADirectoryError], [UnicodeDecodeError], a Kafka
    error, ...). *)
Inductive exn : Type :=
| FileNotFoundError
| JSONDecodeError
| ValueError
| OtherException
| KeyboardInterrupt
| SystemExit (code : Z).

Definition is_Exception (e : exn) : bool :=
  match e with
  | KeyboardInterrupt | SystemExit _ => false
  | _ => true
  end.

(** ** The world *)

(** What one [open(file_path, "r")] followed by reading finds. *)
Inductive file_state : Type :=
| Missing                  (* [open] raises [FileNotFoundError] *)
| Unreadable               (* [open] or the read raises another [Exception] *)
| Content (text : string). (* the text of the file *)

(** Where in an iteration of the delivery loop a [KeyboardInterrupt] arrives:
    while the next record is fetched, or after [producer.send] returned
    (during the log line or [time.sleep]). *)
Inductive interrupt_point : Type :=
| BeforeSend
| AfterSend.

Record world : Type := {
  (* [verify_services()], of utils.utils_producer: returns, or ends the
     process with the given status *)
  verify_services : option Z;
  (* os.getenv of the three variables *)
  BUZZ_TOPIC : option string;
  BUZZ_INTERVAL_SECONDS : option string;
  CUSTOM_MESSAGE : option string;
  (* [DATA_FILE.exists()] at start-up *)
  data_file_exists : bool;
  (* the data file as the k-th [open] of [generate_messages] finds it *)
  data_file : nat -> file_state;
  (* [create_kafka_producer] returns a producer ([true]) or [None] *)
  producer_created : bool;
  (* [create_kafka_topic] returns ([true]) or raises *)
  topic_ready : bool;
  (* [producer.send] of iteration i raises an [Exception] *)
  send_raises : nat -> bool;
  (* a [KeyboardInterrupt] delivered during iteration i *)
  interrupt : nat -> option interrupt_point
}.

(** The two library functions the script branches on.  [json_loads s] is
    [None] when [json.loads(s)] raises [JSONDecodeError]; [int_of_str s] is
    [None] when [int(s)] raises [ValueError].  The empty text is not a JSON
    text. *)
Class PyLib : Type := {
  json_loads : string -> option value;
  int_of_str : string -> option Z;
  json_loads_empty : json_loads "" = None
}.

(** ** Traces *)

Inductive event : Type :=
| CheckExists                        (* DATA_FILE.exists() *)
| OpenFile (k : nat)                 (* the k-th open of the data file *)
| CreateProducer                     (* create_kafka_producer(...) *)
| CreateTopic (topic : string)       (* create_kafka_topic(topic) *)
| Send (topic : string) (v : value)  (* producer.send(topic, value=v) *)
| Sleep (secs : Z)                   (* time.sleep(secs) returned *)
| Close.                             (* producer.close() *)

Inductive outcome : Type :=
| Exited (status : Z) (tr : list event)  (* the process ended *)
| Running (tr : list event).             (* out of fuel: still running *)

Definition emit (evs : list event) (o : outcome) : outcome :=
  match o with
  | Exited c tr => Exited c (evs ++ tr)
  | Running tr => Running (evs ++ tr)
  end.

Definition trace (o : outcome) : list event :=
  match o with Exited _ tr | Running tr => tr end.

Definition status (o : outcome) : option Z :=
  match o with Exited c _ => Some c | Running _ => None end.

Definition is_close (e : event) : bool :=
  match e with Close => true | _ => false end.

Definition is_send (e : event) : bool :=
  match e with Send _ _ => true | _ => false end.


(** The values handed to [producer.send], in order. *)
Definition sent (tr : list event) : list value :=
  flat_map (fun e => match e with Send _ v => [v] | _ => [] end) tr.

(** How often [producer.close()] ran. *)
Definition closes (tr : list event) : nat :=
  length (filter is_close tr).

(** ** The pause *)

(** The longest pause [time.sleep] takes, in seconds: the length is kept as
    a 64-bit count of nanoseconds, and 9223372037 seconds do not fit. *)
Definition sleep_max : Z := 9223372036.

(** [time.sleep(secs)] for an integer: the exception it raises, or [None]
    when it returns after the pause.  A length that does not fit raises
    [OverflowError], a negative one [ValueError]. *)
Definition time_sleep (secs : Z) : option exn :=
  if (secs <? - sleep_max) || (sleep_max <? secs) then Some OtherException
  else if secs <? 0 then Some ValueError
  else None.

(** ** The program *)

Section Producer.

Context {lib : PyLib}.
Variable w : world.

(** Lines 45-49. *)
Definition get_kafka_topic : string :=
  match BUZZ_TOPIC w with
  | Some topic => topic
  | None => "unknown_topic"
  end.

(** Lines 52-56: [int(os.getenv("BUZZ_INTERVAL_SECONDS", 1))]. *)
Definition get_message_interval : Z + exn :=
  match BUZZ_INTERVAL_SECONDS w with
  | None => inl 1
  | Some s =>
      match int_of_str s with
      | Some n => inl n
      | None => inr ValueError
      end
  end.

(** Lines 59-77.  Python's [None] is [VNone], which is also what
    [json.loads("null")] gives. *)
Definition get_custom_message : value :=
  match CUSTOM_MESSAGE w with
  | Some custom_message =>
      if truthy (VStr custom_message) then
        match json_loads custom_message with
        | Some message_obj => message_obj
        | None => VDict [("message", VStr custom_message)]
        end
      else VNone
  | None => VNone
  end.

(** A suspended generator: [generate_messages] between two [yield]s holds
    the number of [open]s done and the entries of the current pass still to
    be yielded (none before the first [next] and at a cycle boundary);
    [generate_custom_message] holds its argument. *)
Inductive generator : Type :=
| GenFile (opens : nat) (rest : list value)
| GenCustom (custom_msg : value).

(** Lines 113-122, the body of the [try] up to the [for]: the list to
    iterate over, or the exception raised. *)
Definition load_entries (fs : file_state) : list value + exn :=
  match fs with
  | Missing => inr FileNotFoundError
  | Unreadable => inr OtherException
  | Content text =>
      match json_loads text with
      | None => inr JSONDecodeError
      | Some (VList json_data) => inl json_data
      | Some _ => inr ValueError
      end
  end.

(** Lines 128-136, the [except] clauses of [generate_messages]: what leaves
    the generator when [e] is raised inside the [try]. *)
Definition generation_handler (e : exn) : exn :=
  match e with
  | FileNotFoundError => SystemExit 1
  | JSONDecodeError => SystemExit 2
  | ValueError | OtherException => SystemExit 3
  | KeyboardInterrupt | SystemExit _ => e
  end.

(** What [next(generator)] does. *)
Inductive next_result : Type :=
| Yielded (v : value) (g : generator)
| Raised (e : exn)
| StopIteration
| Spinning.   (* out of fuel inside the generator *)

(** [next(message_generator)], with the [open]s it performs.  An empty list
    sends [generate_messages] round its [while True] again without a
    [yield]; each such round takes one unit of fuel. *)
Fixpoint next (fuel : nat) (g : generator) {struct fuel}
  : list event * next_result :=
  match g with
  | GenCustom custom_msg => ([], Yielded custom_msg (GenCustom custom_msg))
  | GenFile k (buzz_entry :: rest) => ([], Yielded buzz_entry (GenFile k rest))
  | GenFile k [] =>
      match load_entries (data_file w k) with
      | inr e => ([OpenFile k], Raised (generation_handler e))
      | inl (buzz_entry :: rest) =>
          ([OpenFile k], Yielded buzz_entry (GenFile (S k) rest))
      | inl [] =>
          match fuel with
          | O => ([OpenFile k], Spinning)
          | S fuel' =>
              let '(evs, r) := next fuel' (GenFile (S k) []) in
              (OpenFile k :: evs, r)
          end
      end
  end.

(** Lines 100 and 139: calling a generator function runs none of its body. *)
Definition generate_messages : generator := GenFile 0 [].

Definition generate_custom_message (custom_msg : value) : generator :=
  GenCustom custom_msg.

(** Lines 174-183: the generator [main] picks, with the check it makes, or
    the exception raised. *)
Definition select_generator (custom_msg : value)
  : list event * (generator + exn) :=
  if truthy custom_msg then
    ([], inl (generate_custom_message custom_msg))
  else if negb (data_file_exists w) then
    ([CheckExists], inr (SystemExit 1))
  else
    ([CheckExists], inl generate_messages).

(** Lines 209-215: how the [try] statement around the loop ends.  The
    [finally] clause closes the producer whatever happened; the two [except]
    clauses swallow [KeyboardInterrupt] and every [Exception], after which
    [main] returns and the process ends with status 0; a [SystemExit] goes
    through and sets the status. *)
Definition finish (evs : list event) (raised : option exn) : outcome :=
  match raised with
  | Some (SystemExit code) => Exited code (evs ++ [Close])
  | Some _ | None => Exited 0 (evs ++ [Close])
  end.

(** Lines 203-215: the delivery loop from iteration [i] on, the generator
    being [g]. *)
Fixpoint delivery_loop (topic : string) (interval_secs : Z)
    (fuel : nat) (i : nat) (g : generator) {struct fuel} : outcome :=
  match fuel with
  | O => Running []
  | S fuel' =>
      match interrupt w i with
      | Some BeforeSend => finish [] (Some KeyboardInterrupt)
      | after =>
          match next fuel' g with
          | (evs, Spinning) => Running evs
          | (evs, StopIteration) => finish evs None
          | (evs, Raised e) => finish evs (Some e)
          | (evs, Yielded message_dict g') =>
              let evs := evs ++ [Send topic message_dict] in
              if send_raises w i then finish evs (Some OtherException)
              else
                match after with
                | Some _ => finish evs (Some KeyboardInterrupt)
                | None =>
                    match time_sleep interval_secs with
                    | Some e => finish evs (Some e)
                    | None =>
                        emit (evs ++ [Sleep interval_secs])
                          (delivery_loop topic interval_secs fuel' (S i) g')
                    end
                end
          end
      end
  end.

(** The status of a process whose [main] ends with an uncaught exception. *)
Definition uncaught (e : exn) : Z :=
  match e with
  | SystemExit code => code
  | KeyboardInterrupt => 130
  | _ => 1
  end.

(** Lines 158-217. *)
Definition main (fuel : nat) : outcome :=
  match verify_services w with
  | Some code => Exited code []
  | None =>
      let topic := get_kafka_topic in
      match get_message_interval with
      | inr e => Exited (uncaught e) []
      | inl interval_secs =>
          let custom_msg := get_custom_message in
          match select_generator custom_msg with
          | (evs, inr e) => Exited (uncaught e) evs
          | (evs, inl message_generator) =>
              if negb (producer_created w) then
                Exited 3 (evs ++ [CreateProducer])
              else if negb (topic_ready w) then
                Exited 1 (evs ++ [CreateProducer; CreateTopic topic])
              else
                emit (evs ++ [CreateProducer; CreateTopic topic])
                  (delivery_loop topic interval_secs fuel 0 message_generator)
          end
      end
  end.

End Producer.

(** ** A reference library

    A decoder for JSON texts after [json.loads] (the grammar of
    json.decoder and json.scanner, the non-standard [NaN], [Infinity] and
    [-Infinity] included) and a reader of decimal integers after [int], so
    that the program can be run on concrete configurations.  A [string]
    holds the UTF-8 encoding of a Python [str].  The limits Python puts on
    resources (recursion depth, digits of an integer) are not part of it. *)
Module Reference.

Local Open Scope char_scope.
Local Open Scope Z_scope.
Local Open Scope list_scope.

Definition is_ws (c : ascii) : bool :=
  ((c =? " ") || (c =? "009") || (c =? "010") || (c =? "013"))%char.

Fixpoint skip_ws (cs : list ascii) : list ascii :=
  match cs with
  | c :: cs' => if is_ws c then skip_ws cs' else cs
  | [] => []
  end.

Definition code (c : ascii) : Z := Z.of_N (N_of_ascii c).

Definition chr (n : Z) : ascii := ascii_of_N (Z.to_N n).

Definition digit (c : ascii) : option Z :=
  if (48 <=? code c) && (code c <=? 57) then Some (code c - 48) else None.

Definition hex_digit (c : ascii) : option Z :=
  let n := code c in
  if (48 <=? n) && (n <=? 57) then Some (n - 48)
  else if (65 <=? n) && (n <=? 70) then Some (n - 55)
  else if (97 <=? n) && (n <=? 102) then Some (n - 87)
  else None.

(** The longest run of decimal digits: how many, their value on top of
    [acc], and the rest. *)
Fixpoint digits (cs : list ascii) (count : Z) (acc : Z)
  : Z * Z * list ascii :=
  match cs with
  | c :: cs' =>
      match digit c with
      | Some d => digits cs' (count + 1) (10 * acc + d)
      | None => (count, acc, cs)
      end
  | [] => (count, acc, [])
  end.

Fixpoint strip_prefix (p cs : list ascii) : option (list ascii) :=
  match p, cs with
  | [], _ => Some cs
  | a :: p', c :: cs' => if (a =? c)%char then strip_prefix p' cs' else None
  | _ :: _, [] => None
  end.

(** [float] of the decimal [m * 10^e], correctly rounded to binary64. *)
Definition float_of_decimal (neg : bool) (m : Z) (e : Z) : spec_float :=
  match m with
  | Zpos p =>
      let num := (p * Z.to_pos (10 ^ Z.max e 0))%positive in
      let den := Z.to_pos (10 ^ Z.max (- e) 0) in
      SFdiv 53 1024 (S754_finite neg num 0) (S754_finite false den 0)
  | _ => S754_zero neg
  end.

(** NUMBER_RE of json.scanner: an optional minus sign and an integer part
    (0, or digits not starting with 0); then, if present and complete, a
    point with digits; then, if present and complete, e or E, an optional
    sign and digits.  An integer part alone is an [int], the rest a
    [float]. *)
Definition scan_number (cs : list ascii) : option (value * list ascii) :=
  let '(neg, cs1) :=
    match cs with "-" :: r => (true, r) | _ => (false, cs) end in
  let int_part :=
    match cs1 with
    | "0" :: r => Some (1%Z, 0%Z, r)
    | _ => match digits cs1 0 0 with
           | (0%Z, _, _) => None
           | found => Some found
           end
    end in
  match int_part with
  | None => None
  | Some (_, n, cs2) =>
      let '(frac_len, m, cs3) :=
        match cs2 with
        | "." :: r =>
            match digits r 0 n with
            | (0%Z, _, _) => (0%Z, n, cs2)
            | found => found
            end
        | _ => (0%Z, n, cs2)
        end in
      let exponent :=
        match cs3 with
        | "e" :: r | "E" :: r =>
            let '(eneg, r1) :=
              match r with
              | "-" :: r' => (true, r')
              | "+" :: r' => (false, r')
              | _ => (false, r)
              end in
            match digits r1 0 0 with
            | (0%Z, _, _) => None
            | (_, x, r2) => Some ((if eneg then - x else x)%Z, r2)
            end
        | _ => None
        end in
      match exponent with
      | Some (x, cs4) =>
          Some (VFloat (float_of_decimal neg m (x - frac_len)), cs4)
      | None =>
          if (frac_len =? 0)%Z
          then Some (VInt (if neg then - n else n), cs3)
          else Some (VFloat (float_of_decimal neg m (- frac_len)), cs3)
      end
  end.

(** The UTF-8 encoding of a code point (a lone surrogate included). *)
Definition utf8 (u : Z) : list ascii :=
  if (u <? 128)%Z then [chr u]
  else if (u <? 2048)%Z then
    [chr (192 + u / 64); chr (128 + u mod 64)]
  else if (u <? 65536)%Z then
    [chr (224 + u / 4096); chr (128 + (u / 64) mod 64); chr (128 + u mod 64)]
  else
    [chr (240 + u / 262144); chr (128 + (u / 4096) mod 64);
     chr (128 + (u / 64) mod 64); chr (128 + u mod 64)].

(** Four hexadecimal digits. *)
Definition scan_hex4 (cs : list ascii) : option (Z * list ascii) :=
  match cs with
  | a :: b :: c :: d :: r =>
      match hex_digit a, hex_digit b, hex_digit c, hex_digit d with
      | Some x3, Some x2, Some x1, Some x0 =>
          Some ((4096 * x3 + 256 * x2 + 16 * x1 + x0)%Z, r)
      | _, _, _, _ => None
      end
  | _ => None
  end.

(** What follows a backslash in a string. *)
Definition scan_escape (cs : list ascii) : option (list ascii * list ascii) :=
  match cs with
  | "034" :: r => Some (["034"], r)
  | "\" :: r => Some (["\"], r)
  | "/" :: r => Some (["/"], r)
  | "b" :: r => Some (["008"], r)
  | "f" :: r => Some (["012"], r)
  | "n" :: r => Some (["010"], r)
  | "r" :: r => Some (["013"], r)
  | "t" :: r => Some (["009"], r)
  | "u" :: r =>
      match scan_hex4 r with
      | None => None
      | Some (uni, r1) =>
          let paired :=
            if (55296 <=? uni)%Z && (uni <=? 56319)%Z then
              match r1 with
              | "\" :: "u" :: r2 =>
                  match scan_hex4 r2 with
                  | Some (uni2, r3) =>
                      if (56320 <=? uni2)%Z && (uni2 <=? 57343)%Z
                      then Some ((65536 + (uni - 55296) * 1024
                                  + (uni2 - 56320))%Z, r3)
                      else None
                  | None => None
                  end
              | _ => None
              end
            else None in
          match paired with
          | Some (u, r3) => Some (utf8 u, r3)
          | None => Some (utf8 uni, r1)
          end
      end
  | _ => None
  end.

(** py_scanstring with [strict=True], after the opening quote. *)
Fixpoint scan_string (fuel : nat) (acc : list ascii) (cs : list ascii)
  : option (string * list ascii) :=
  match fuel with
  | O => None
  | S fuel' =>
      match cs with
      | [] => None
      | "034" :: r => Some (string_of_list_ascii (rev acc), r)
      | "\" :: r =>
          match scan_escape r with
          | Some (chars, r') => scan_string fuel' (rev chars ++ acc) r'
          | None => None
          end
      | c :: r =>
          if (code c <? 32)%Z then None else scan_string fuel' (c :: acc) r
      end
  end.

(** [dict(pairs)]: a repeated key keeps its place and takes the new value. *)
Fixpoint dict_set (k : string) (v : value) (entries : list (string * value))
  : list (string * value) :=
  match entries with
  | [] => [(k, v)]
  | (k', v') :: rest =>
      if (k =? k')%string then (k, v) :: rest
      else (k', v') :: dict_set k v rest
  end.

(** scan_once, JSONArray and JSONObject. *)
Fixpoint scan_once (fuel : nat) (cs : list ascii) {struct fuel}
  : option (value * list ascii) :=
  match fuel with
  | O => None
  | S fuel' =>
      match cs with
      | "034" :: r =>
          match scan_string (S (length r)) [] r with
          | Some (s, r') => Some (VStr s, r')
          | None => None
          end
      | "{" :: r =>
          match skip_ws r with
          | "}" :: r' => Some (VDict [], r')
          | "034" :: r' => scan_members fuel' [] r'
          | _ => None
          end
      | "[" :: r =>
          match skip_ws r with
          | "]" :: r' => Some (VList [], r')
          | r' => scan_items fuel' [] r'
          end
      | _ =>
          match strip_prefix (list_ascii_of_string "null") cs,
                strip_prefix (list_ascii_of_string "true") cs,
                strip_prefix (list_ascii_of_string "false") cs with
          | Some r, _, _ => Some (VNone, r)
          | _, Some r, _ => Some (VBool true, r)
          | _, _, Some r => Some (VBool false, r)
          | _, _, _ =>
              match scan_number cs with
              | Some found => Some found
              | None =>
                  match strip_prefix (list_ascii_of_string "NaN") cs,
                        strip_prefix (list_ascii_of_string "Infinity") cs,
                        strip_prefix (list_ascii_of_string "-Infinity") cs with
                  | Some r, _, _ => Some (VFloat S754_nan, r)
                  | _, Some r, _ => Some (VFloat (S754_infinity false), r)
                  | _, _, Some r => Some (VFloat (S754_infinity true), r)
                  | _, _, _ => None
                  end
              end
          end
      end
  end

(** The items of an array, from the first character of an item. *)
with scan_items (fuel : nat) (acc : list value) (cs : list ascii)
    {struct fuel} : option (value * list ascii) :=
  match fuel with
  | O => None
  | S fuel' =>
      match scan_once fuel' cs with
      | None => None
      | Some (v, r) =>
          match skip_ws r with
          | "]" :: r' => Some (VList (acc ++ [v]), r')
          | "," :: r' => scan_items fuel' (acc ++ [v]) (skip_ws r')
          | _ => None
          end
      end
  end

(** The members of an object, after the opening quote of a key. *)
with scan_members (fuel : nat) (acc : list (string * value))
    (cs : list ascii) {struct fuel} : option (value * list ascii) :=
  match fuel with
  | O => None
  | S fuel' =>
      match scan_string (S (length cs)) [] cs with
      | None => None
      | Some (key, r) =>
          match skip_ws r with
          | ":" :: r1 =>
              match scan_once fuel' (skip_ws r1) with
              | None => None
              | Some (v, r2) =>
                  let acc := dict_set key v acc in
                  match skip_ws r2 with
                  | "}" :: r3 => Some (VDict acc, r3)
                  | "," :: r3 =>
                      match skip_ws r3 with
                      | "034" :: r4 => scan_members fuel' acc r4
                      | _ => None
                      end
                  | _ => None
                  end
              end
          | _ => None
          end
      end
  end.

(** [json.loads(s)]: one value between white space, nothing after it. *)
Definition loads (s : string) : option value :=
  let cs := list_ascii_of_string s in
  match scan_once (2 * length cs + 2) (skip_ws cs) with
  | Some (v, r) => match skip_ws r with [] => Some v | _ :: _ => None end
  | None => None
  end.

(** [int(s)] for ASCII text: white space around an optional sign and
    decimal digits, single underscores allowed between digits. *)
Fixpoint int_digits (cs : list ascii) (acc : Z) : option Z :=
  match cs with
  | [] => Some acc
  | "_" :: c :: cs' =>
      match digit c with
      | Some d => int_digits cs' (10 * acc + d)
      | None => None
      end
  | c :: cs' =>
      match digit c with
      | Some d => int_digits cs' (10 * acc + d)
      | None => None
      end
  end.

Definition is_space (c : ascii) : bool :=
  is_ws c || (c =? "011")%char || (c =? "012")%char
  || ((28 <=? code c) && (code c <=? 31)).

Fixpoint lstrip (cs : list ascii) : list ascii :=
  match cs with
  | c :: cs' => if is_space c then lstrip cs' else cs
  | [] => []
  end.

Definition strip (cs : list ascii) : list ascii :=
  rev (lstrip (rev (lstrip cs))).

Definition int (s : string) : option Z :=
  let cs := strip (list_ascii_of_string s) in
  let '(neg, body) :=
    match cs with
    | "-" :: r => (true, r)
    | "+" :: r => (false, r)
    | _ => (false, cs)
    end in
  match body with
  | c :: _ =>
      match digit c, int_digits body 0 with
      | Some _, Some n => Some (if neg then - n else n)%Z
      | _, _ => None
      end
  | [] => None
  end.

End Reference.

Definition reference : PyLib := {|
  json_loads := Reference.loads;
  int_of_str := Reference.int;
  json_loads_empty := eq_refl
|}.

(** ** Observations on runs *)

(** The first [n + 1] calls of [next]: the [open]s they perform and the
    result of the last one; a call that does not yield ends the sequence. *)
Fixpoint nth_next {lib : PyLib} (w : world) (fuel : nat) (n : nat)
    (g : generator) : list event * next_result :=
  match n with
  | O => next w fuel g
  | S n' =>
      match next w fuel g with
      | (evs, Yielded _ g') =>
          let '(evs', r) := nth_next w fuel n' g' in (evs ++ evs', r)
      | stuck => stuck
      end
  end.

(** The events of [next]: opening the data file. *)
Definition is_open (e : event) : bool :=
  match e with OpenFile _ => true | _ => false end.

(** A run that has ended closed the producer once, as its last action; a
    run still under way has not closed it. *)
Definition closed_once (o : outcome) : Prop :=
  match o with
  | Exited _ tr => exists evs, tr = evs ++ [Close] /\ closes evs = 0%nat
  | Running tr => closes tr = 0%nat
  end.


(** ** Concrete configurations *)

(** A broker that works, nothing set in the environment, a data file that
    exists with the given text, no interrupt and no failing send. *)
Definition quiet (text : string) : world := {|
  verify_services := None;
  BUZZ_TOPIC := None;
  BUZZ_INTERVAL_SECONDS := None;
  CUSTOM_MESSAGE := None;
  data_file_exists := true;
  data_file := fun _ => Content text;
  producer_created := true;
  topic_ready := true;
  send_raises := fun _ => false;
  interrupt := fun _ => None
|}.

Definition with_custom_message (s : string) (w : world) : world := {|
  verify_services := verify_services w;
  BUZZ_TOPIC := BUZZ_TOPIC w;
  BUZZ_INTERVAL_SECONDS := BUZZ_INTERVAL_SECONDS w;
  CUSTOM_MESSAGE := Some s;
  data_file_exists := data_file_exists w;
  data_file := data_file w;
  producer_created := producer_created w;
  topic_ready := topic_ready w;
  send_raises := send_raises w;
  interrupt := interrupt w
|}.

Definition with_data_file (exists_ : bool) (file : nat -> file_state)
    (w : world) : world := {|
  verify_services := verify_services w;
  BUZZ_TOPIC := BUZZ_TOPIC w;
  BUZZ_INTERVAL_SECONDS := BUZZ_INTERVAL_SECONDS w;
  CUSTOM_MESSAGE := CUSTOM_MESSAGE w;
  data_file_exists := exists_;
  data_file := file;
  producer_created := producer_created w;
  topic_ready := topic_ready w;
  send_raises := send_raises w;
  interrupt := interrupt w
|}.

Definition with_broker (producer topic : bool) (w : world) : world := {|
  verify_services := verify_services w;
  BUZZ_TOPIC := BUZZ_TOPIC w;
  BUZZ_INTERVAL_SECONDS := BUZZ_INTERVAL_SECONDS w;
  CUSTOM_MESSAGE := CUSTOM_MESSAGE w;
  data_file_exists := data_file_exists w;
  data_file := data_file w;
  producer_created := producer;
  topic_ready := topic;
  send_raises := send_raises w;
  interrupt := interrupt w
|}.

Definition with_interval (s : string) (w : world) : world := {|
  verify_services := verify_services w;
  BUZZ_TOPIC := BUZZ_TOPIC w;
  BUZZ_INTERVAL_SECONDS := Some s;
  CUSTOM_MESSAGE := CUSTOM_MESSAGE w;
  data_file_exists := data_file_exists w;
  data_file := data_file w;
  producer_created := producer_created w;
  topic_ready := topic_ready w;
  send_raises := send_raises w;
  interrupt := interrupt w
|}.

Definition with_faults (raises : nat -> bool)
    (signal : nat -> option interrupt_point) (w : world) : world := {|
  verify_services := verify_services w;
  BUZZ_TOPIC := BUZZ_TOPIC w;
  BUZZ_INTERVAL_SECONDS := BUZZ_INTERVAL_SECONDS w;
  CUSTOM_MESSAGE := CUSTOM_MESSAGE w;
  data_file_exists := data_file_exists w;
  data_file := data_file w;
  producer_created := producer_created w;
  topic_ready := topic_ready w;
  send_raises := raises;
  interrupt := signal
|}.

(** JSON texts are written with ' for the double quote. *)
Fixpoint dq (s : string) : string :=
  match s with
  | EmptyString => EmptyString
  | String c s' => String (if (c =? "'")%char then "034"%char else c) (dq s')
  end.

(** The file of the end-to-end test of the specification. *)
Definition two_messages : string :=
  dq "[{'message':'a'},{'message':'b'}]".

Definition msg (s : string) : value := VDict [("message", VStr s)].

(** * The CSV consumer

    A shallow embedding of [consumers/csv_consumer_badeniyan2.py].  The rows
    are taken as [csv.DictReader] hands them over; [float] is a parameter,
    with a reference reader for decimal text.  Each [logger.info] is a
    [log_line]. *)
Module Consumer.

(** [float(n)] of an integer. *)
Definition float_of_int (n : Z) : spec_float :=
  binary_normalize 53 1024 n 0 false.

(** Lines 9-11: [150 <= temp <= 190], that is [150 <= temp and temp <= 190].
    Python compares an [int] with a [float] by their exact values; 150 and
    190 are floats, so this is the comparison of floats, false on NaN. *)
Definition is_food_stall (temp : spec_float) : bool :=
  SFleb (float_of_int 150) temp && SFleb temp (float_of_int 190).

(** What [row[key]] finds in a row of [csv.DictReader]: no such column
    ([KeyError]), [None] for a column the line is too short to fill, or the
    text of the field. *)
Inductive cell : Type :=
| Absent
| Blank
| Text (s : string).

Definition row : Type := string -> cell.

(** The exceptions that end the consumer.  [OSError] stands for what [open]
    raises on a file that is there but cannot be opened ([PermissionError],
    [IsADirectoryError]); [ReaderError] for what the reader raises while the
    file is read ([csv.Error], [UnicodeDecodeError]). *)
Inductive error : Type :=
| FileNotFoundError
| OSError
| ReaderError
| KeyError (key : string)
| TypeError
| ValueError.

(** [float(s)]: [None] when it raises [ValueError]. *)
Class FloatLib : Type := {
  float_of_str : string -> option spec_float
}.

(** The messages logged, with the values put into them; [time] is [None]
    for Python's [None]. *)
Inductive log_line : Type :=
| Starting
| InStallRange (time : option string) (temperature : spec_float)
| NoStallDetected (time : option string) (temperature : spec_float)
| Finished.

(** What [open(file_path, mode='r')] and the reader find: no file, a file
    that cannot be opened, a file read to its end, or a file whose reader
    raises after it has handed over some rows. *)
Inductive source : Type :=
| NoFile
| Unopenable
| Rows (rows : list row)
| Broken (rows : list row).

(** The time put into a line: [None] for a column the line did not fill. *)
Definition time_of (r : row) : option string :=
  match r "time" with
  | Text s => Some s
  | Absent | Blank => None
  end.

(** Lines 25-28: the line for a row whose temperature is [t]. *)
Definition line_for (r : row) (t : spec_float) : log_line :=
  if is_food_stall t
  then InStallRange (time_of r) t
  else NoStallDetected (time_of r) t.

Section Consume.

Context {lib : FloatLib}.

(** Lines 21-28, the body of the loop: the line logged for a row, or the
    exception raised. *)
Definition consume_row (r : row) : log_line + error :=
  match r "time" with
  | Absent => inr (KeyError "time")
  | found =>
      let time := match found with Text s => Some s | _ => None end in
      match r "temperature" with
      | Absent => inr (KeyError "temperature")
      | Blank => inr TypeError
      | Text s =>
          match float_of_str s with
          | None => inr ValueError
          | Some temperature =>
              if is_food_stall temperature
              then inl (InStallRange time temperature)
              else inl (NoStallDetected time temperature)
          end
      end
  end.

(** Lines 20-28, the loop: the lines logged and the exception that ended
    it, if any. *)
Fixpoint consume_rows (rows : list row) : list log_line * option error :=
  match rows with
  | [] => ([], None)
  | r :: rows' =>
      match consume_row r with
      | inr e => ([], Some e)
      | inl line =>
          let '(lines, raised) := consume_rows rows' in
          (line :: lines, raised)
      end
  end.

(** Lines 14-28. *)
Definition consume_csv (file : source) : list log_line * option error :=
  match file with
  | NoFile => ([], Some FileNotFoundError)
  | Unopenable => ([], Some OSError)
  | Rows rows => consume_rows rows
  | Broken rows =>
      match consume_rows rows with
      | (lines, Some e) => (lines, Some e)
      | (lines, None) => (lines, Some ReaderError)
      end
  end.

(** Lines 31-37, the script: the lines logged and the status of the
    process, 1 after an uncaught exception. *)
Definition main (file : source) : list log_line * Z :=
  match consume_csv file with
  | (lines, None) => (Starting :: lines ++ [Finished], 0)
  | (lines, Some _) => (Starting :: lines, 1)
  end.

(** A row the loop gets through, with the line it logs: the row has a
    time column and a temperature that [float] accepts. *)
Definition logged (r : row) (line : log_line) : Prop :=
  r "time" <> Absent
  /\ exists s t,
       r "temperature" = Text s /\ float_of_str s = Some t
       /\ line = line_for r t.

(** A row that ends the loop, with the exception: no time column, no
    temperature column, a temperature the line did not fill, or one that
    [float] refuses. *)
Definition fails (r : row) (e : error) : Prop :=
  (r "time" = Absent /\ e = KeyError "time")
  \/ (r "time" <> Absent /\ r "temperature" = Absent
      /\ e = KeyError "temperature")
  \/ (r "time" <> Absent /\ r "temperature" = Blank /\ e = TypeError)
  \/ (r "time" <> Absent
      /\ exists s, r "temperature" = Text s /\ float_of_str s = None
                   /\ e = ValueError).

End Consume.

(** The exact value of a finite float [m * 2^e] as a fraction. *)
Definition numerator (m : positive) (e : Z) : Z := Zpos m * 2 ^ Z.max e 0.

Definition denominator (e : Z) : Z := 2 ^ Z.max (- e) 0.

End Consumer.

(** A reference [float] for ASCII text: white space around an optional
    sign and inf, infinity, nan (in any case) or a decimal number with an
    optional fraction and exponent, single underscores allowed between
    digits. *)
Module ReferenceFloat.

Local Open Scope char_scope.
Local Open Scope Z_scope.
Local Open Scope list_scope.

(** A run of digits on top of [acc]: how many, their value, the rest. *)
Fixpoint digits_us (cs : list ascii) (count : Z) (acc : Z)
  : Z * Z * list ascii :=
  match cs with
  | c :: cs' =>
      match Reference.digit c with
      | Some d => digits_us cs' (count + 1) (10 * acc + d)
      | None =>
          if (c =? "_")%char && (0 <? count) then
            match cs' with
            | c2 :: _ =>
                match Reference.digit c2 with
                | Some _ => digits_us cs' count acc
                | None => (count, acc, cs)
                end
            | [] => (count, acc, cs)
            end
          else (count, acc, cs)
      end
  | [] => (count, acc, [])
  end.

Definition lower (c : ascii) : ascii :=
  let n := Reference.code c in
  if (65 <=? n) && (n <=? 90) then Reference.chr (n + 32) else c.

Definition is_word (word : string) (cs : list ascii) : bool :=
  (string_of_list_ascii (map lower cs) =? word)%string.

Definition float (s : string) : option spec_float :=
  let cs := Reference.strip (list_ascii_of_string s) in
  let '(neg, body) :=
    match cs with
    | "-" :: r => (true, r)
    | "+" :: r => (false, r)
    | _ => (false, cs)
    end in
  if is_word "inf" body || is_word "infinity" body
  then Some (S754_infinity neg)
  else if is_word "nan" body then Some S754_nan
  else
    let '(int_len, n, r1) := digits_us body 0 0 in
    let '(frac_len, m, r2) :=
      match r1 with
      | "." :: r => digits_us r 0 n
      | _ => (0, n, r1)
      end in
    if int_len + frac_len =? 0 then None
    else
      match r2 with
      | [] => Some (Reference.float_of_decimal neg m (- frac_len))
      | "e" :: r | "E" :: r =>
          let '(eneg, r3) :=
            match r with
            | "-" :: r' => (true, r')
            | "+" :: r' => (false, r')
            | _ => (false, r)
            end in
          match digits_us r3 0 0 with
          | (0, _, _) => None
          | (_, x, []) =>
              Some (Reference.float_of_decimal neg m
                      ((if eneg then - x else x) - frac_len))
          | (_, _, _ :: _) => None
          end
      | _ :: _ => None
      end.

End ReferenceFloat.

Definition reference_float : Consumer.FloatLib := {|
  Consumer.float_of_str := ReferenceFloat.float
|}.

(** A row of a line too short to fill its temperature column. *)
Definition short_row : Consumer.row :=
  fun key =>
    if (key =? "time")%string then Consumer.Text "7"
    else if (key =? "temperature")%string then Consumer.Blank
    else Consumer.Absent.

(** A row with the two columns of the consumer. *)
Definition reading (time temperature : string) : Consumer.row :=
  fun key =>
    if (key =? "time")%string then Consumer.Text time
    else if (key =? "temperature")%string then Consumer.Text temperature
    else Consumer.Absent.

(** A logged line says what [is_food_stall] says of its temperature. *)
Definition well_classified (line : Consumer.log_line) : Prop :=
  match line with
  | Consumer.InStallRange _ temperature =>
      Consumer.is_food_stall temperature = true
  | Consumer.NoStallDetected _ temperature =>
      Consumer.is_food_stall temperature = false
  | Consumer.Starting | Consumer.Finished => True
  end.

(** A data file rewritten after its first read. *)
Definition rewritten (first later : string) : world :=
  with_data_file true
    (fun k => if (k =? 0)%nat then Content first else Content later)
    (quiet first).


(** 180.0 and 160.0 as binary64 floats. *)
Definition f180 : spec_float := S754_finite false 6333186975989760 (-45).

Definition f160 : spec_float := S754_finite false 5629499534213120 (-45).

(** ** The other exceptions of json.loads *)

(** [json_loads_raises s] is the exception other than [JSONDecodeError]
    that [json.loads(s)] raises, when it raises one: [RecursionError] for
    nesting too deep, [ValueError] for an integer of more digits than [int]
    converts.  [json_loads s] then has no meaning. *)
Class JsonFaults : Type := {
  json_loads_raises : string -> option exn
}.

(** [json.loads(s)] with every outcome. *)
Definition json_loads_outcome {lib : PyLib} {faults : JsonFaults}
    (s : string) : value + exn :=
  match json_loads_raises s with
  | Some e => inr e
  | None =>
      match json_loads s with
      | Some v => inl v
      | None => inr JSONDecodeError
      end
  end.

(** Lines 59-77 with every outcome of [json.loads]: the [except] clause of
    line 73 catches [JSONDecodeError] and lets any other exception leave
    the function. *)
Definition get_custom_message_outcome {lib : PyLib} {faults : JsonFaults}
    (w : world) : value + exn :=
  match CUSTOM_MESSAGE w with
  | Some custom_message =>
      if truthy (VStr custom_message) then
        match json_loads_outcome custom_message with
        | inl message_obj => inl message_obj
        | inr JSONDecodeError =>
            inl (VDict [("message", VStr custom_message)])
        | inr e => inr e
        end
      else inl VNone
  | None => inl VNone
  end.

(** The one fault of [json.loads] the reference library knows: a text
    whose value is a single integer of more than 4300 digits, the most
    [int] converts from decimal text (CPython 3.11).  Nesting too deep for
    the recursion limit is not in it. *)
Module ReferenceFaults.

Local Open Scope char_scope.
Local Open Scope Z_scope.
Local Open Scope list_scope.

Definition max_str_digits : Z := 4300.

(** The text goes on as a fraction or an exponent: the number is a
    [float]. *)
Definition continues_as_float (cs : list ascii) : bool :=
  match cs with
  | "." :: c :: _ =>
      match Reference.digit c with Some _ => true | None => false end
  | "e" :: r | "E" :: r =>
      match r with
      | "-" :: c :: _ | "+" :: c :: _ =>
          match Reference.digit c with Some _ => true | None => false end
      | c :: _ =>
          match Reference.digit c with Some _ => true | None => false end
      | [] => false
      end
  | _ => false
  end.

Definition loads_raises (s : string) : option exn :=
  let cs := Reference.skip_ws (list_ascii_of_string s) in
  let body := match cs with "-" :: r => r | _ => cs end in
  match body with
  | "0" :: _ => None
  | _ =>
      let '(count, _, rest) := Reference.digits body 0 0 in
      if (max_str_digits <? count) && negb (continues_as_float rest)
      then Some ValueError
      else None
  end.

End ReferenceFaults.

Definition reference_faults : JsonFaults := {|
  json_loads_raises := ReferenceFaults.loads_raises
|}.

(** The decimal text of [n] digits 1. *)
Fixpoint ones (n : nat) : string :=
  match n with
  | O => EmptyString
  | S n' => String "1" (ones n')
  end.

(** ** Further observations *)

(** The world with CUSTOM_MESSAGE taken out of the environment. *)
Definition without_custom_message (w : world) : world := {|
  verify_services := verify_services w;
  BUZZ_TOPIC := BUZZ_TOPIC w;
  BUZZ_INTERVAL_SECONDS := BUZZ_INTERVAL_SECONDS w;
  CUSTOM_MESSAGE := None;
  data_file_exists := data_file_exists w;
  data_file := data_file w;
  producer_created := producer_created w;
  topic_ready := topic_ready w;
  send_raises := send_raises w;
  interrupt := interrupt w
|}.


(** The topic of every topic creation and send is [topic]. *)
Definition on_topic (topic : string) (e : event) : Prop :=
  match e with
  | CreateTopic t | Send t _ => t = topic
  | _ => True
  end.

(** Every pause lasts [secs] seconds, and [secs] is not negative. *)
Definition paced (secs : Z) (e : event) : Prop :=
  match e with
  | Sleep s => s = secs /\ 0 <= secs
  | _ => True
  end.

(** The events of start-up. *)
Definition is_startup (e : event) : bool :=
  match e with
  | CheckExists | CreateProducer | CreateTopic _ => true
  | _ => false
  end.


(** * Properties *)

(** ** The generators *)

Section Generators.

Context {lib : PyLib}.

Local Open Scope nat_scope.

Lemma skipn_nth {A : Type} (d : A) (l : list A) (j : nat) :
  j < length l -> skipn j l = nth j l d :: skipn (S j) l.
Proof.
  revert j; induction l as [| x l IH]; intros j Hj; simpl in Hj.
  - lia.
  - destruct j as [| j]; [reflexivity |].
    change (skipn (S j) (x :: l)) with (skipn j l).
    change (nth (S j) (x :: l) d) with (nth j l d).
    change (skipn (S (S j)) (x :: l)) with (skipn (S j) l).
    apply IH; lia.
Qed.

Lemma next_custom (w : world) (fuel : nat) (m : value) :
  next w fuel (GenCustom m) = ([], Yielded m (GenCustom m)).
Proof. destruct fuel; reflexivity. Qed.

Lemma next_pending (w : world) (fuel k : nat) (x : value) (rest : list value) :
  next w fuel (GenFile k (x :: rest)) = ([], Yielded x (GenFile k rest)).
Proof. destruct fuel; reflexivity. Qed.

Lemma next_reload (w : world) (fuel k : nat) (x : value) (rest : list value) :
  load_entries (data_file w k) = inl (x :: rest) ->
  next w fuel (GenFile k []) = ([OpenFile k], Yielded x (GenFile (S k) rest)).
Proof. intros H; destruct fuel; simpl; rewrite H; reflexivity. Qed.

Lemma next_failure (w : world) (fuel k : nat) (e : exn) :
  load_entries (data_file w k) = inr e ->
  next w fuel (GenFile k []) = ([OpenFile k], Raised (generation_handler e)).
Proof. intros H; destruct fuel; simpl; rewrite H; reflexivity. Qed.

Lemma load_entries_content (text : string) (json_data : list value) :
  json_loads text = Some (VList json_data) ->
  load_entries (Content text) = inl json_data.
Proof. intros H; simpl; rewrite H; reflexivity. Qed.

(** One [next] in a pass over a file that always holds the list [xs], at
    position [j] of the list ([j = length xs] being the cycle boundary). *)
Lemma next_file_step (w : world) (xs : list value) :
  (forall k, load_entries (data_file w k) = inl xs) ->
  xs <> [] ->
  forall fuel k j,
    j <= length xs ->
    next w fuel (GenFile k (skipn j xs)) =
      (map OpenFile (seq k (j / length xs)),
       Yielded (nth (j mod length xs) xs VNone)
         (GenFile (k + j / length xs) (skipn (S (j mod length xs)) xs))).
Proof.
  intros Hload Hne fuel k j Hj.
  assert (Hlen : length xs <> 0) by (destruct xs; simpl; congruence).
  destruct (Nat.eq_dec j (length xs)) as [-> | Hlt].
  - rewrite skipn_all, Nat.div_same, Nat.Div0.mod_same by assumption.
    destruct xs as [| x rest]; [congruence |].
    rewrite (next_reload w fuel k x rest) by apply Hload.
    simpl. rewrite Nat.add_1_r. reflexivity.
  - assert (j < length xs) by lia.
    rewrite (skipn_nth VNone) by assumption.
    rewrite next_pending, Nat.div_small, Nat.mod_small by assumption.
    rewrite Nat.add_0_r. reflexivity.
Qed.

Lemma pass_position (len j n : nat) :
  len <> 0 ->
  (j + S n) / len = j / len + (S (j mod len) + n) / len
  /\ (j + S n) mod len = (S (j mod len) + n) mod len.
Proof.
  intros Hlen.
  assert (H : j + S n = S (j mod len) + n + (j / len) * len).
  { rewrite (Nat.div_mod_eq j len) at 1. lia. }
  rewrite H. split.
  - rewrite Nat.div_add by assumption. lia.
  - apply Nat.Div0.mod_add.
Qed.

(** The first [n + 1] calls in such a pass. *)
Lemma nth_next_file (w : world) (xs : list value) :
  (forall k, load_entries (data_file w k) = inl xs) ->
  xs <> [] ->
  forall fuel n k j,
    j <= length xs ->
    nth_next w fuel n (GenFile k (skipn j xs)) =
      (map OpenFile (seq k ((j + n) / length xs)),
       Yielded (nth ((j + n) mod length xs) xs VNone)
         (GenFile (k + (j + n) / length xs)
            (skipn (S ((j + n) mod length xs)) xs))).
Proof.
  intros Hload Hne fuel.
  assert (Hlen : length xs <> 0) by (destruct xs; simpl; congruence).
  induction n as [| n IH]; intros k j Hj.
  - rewrite Nat.add_0_r. simpl. apply next_file_step; assumption.
  - simpl. rewrite (next_file_step w xs Hload Hne fuel k j Hj).
    assert (Hle : S (j mod length xs) <= length xs).
    { pose proof (Nat.mod_upper_bound j (length xs) Hlen). lia. }
    rewrite (IH _ _ Hle).
    destruct (pass_position (length xs) j n Hlen) as [-> ->].
    rewrite seq_app, map_app, Nat.add_assoc. reflexivity.
Qed.

(** C1.  A data file that always holds the same non-empty JSON array is
    replayed in order for ever: the n-th record [generate_messages] yields
    (counting from 0) is entry [n mod len] of the array, whatever the fuel;
    the file has then been opened once per pass begun, [n / len + 1] times,
    each time at a cycle boundary, and the entries that follow in the array
    are the ones still to be yielded: none is reordered, dropped or
    repeated within a pass. *)
Theorem file_generator_cycles (w : world) (text : string)
    (json_data : list value) :
  (forall k, data_file w k = Content text) ->
  json_loads text = Some (VList json_data) ->
  json_data <> [] ->
  forall fuel n,
    nth_next w fuel n generate_messages =
      (map OpenFile (seq 0 (S (n / length json_data))),
       Yielded (nth (n mod length json_data) json_data VNone)
         (GenFile (S (n / length json_data))
            (skipn (S (n mod length json_data)) json_data))).
Proof.
  intros Hfile Hjson Hne fuel n.
  assert (Hlen : length json_data <> 0)
    by (destruct json_data; simpl; congruence).
  assert (Hload : forall k, load_entries (data_file w k) = inl json_data).
  { intros k. rewrite Hfile. apply load_entries_content, Hjson. }
  pose proof (nth_next_file w json_data Hload Hne fuel n 0 (length json_data)
                (Nat.le_refl _)) as H.
  rewrite skipn_all in H.
  replace (length json_data + n) with (n + 1 * length json_data) in H by lia.
  rewrite Nat.div_add, Nat.Div0.mod_add, Nat.add_1_r in H by assumption.
  exact H.
Qed.

(** C8.  [generate_custom_message(R)] yields [R] at every call of [next],
    whatever the fuel: it opens no file, raises nothing and is never
    exhausted. *)
Theorem custom_generator_constant (w : world) (R : value) (fuel n : nat) :
  nth_next w fuel n (generate_custom_message R) =
    ([], Yielded R (generate_custom_message R)).
Proof.
  unfold generate_custom_message.
  induction n as [| n IH]; simpl; rewrite next_custom; [reflexivity |].
  rewrite IH. reflexivity.
Qed.

Lemma next_never_stops (w : world) (fuel : nat) (g : generator) :
  snd (next w fuel g) <> StopIteration.
Proof.
  revert g; induction fuel as [| fuel IH]; intros [k [| x rest] | m]; simpl;
    try discriminate.
  - destruct (load_entries (data_file w k)) as [[| x rest] | e]; simpl;
      discriminate.
  - destruct (load_entries (data_file w k)) as [[| x rest] | e]; simpl;
      try discriminate.
    specialize (IH (GenFile (S k) [])).
    destruct (next w fuel (GenFile (S k) [])) as [evs r]. exact IH.
Qed.

Lemma next_raises_only_on_failure (w : world) (fuel : nat) (g : generator)
    (e : exn) :
  (forall k, exists xs, load_entries (data_file w k) = inl xs) ->
  snd (next w fuel g) <> Raised e.
Proof.
  intros Hok.
  revert g; induction fuel as [| fuel IH]; intros [k [| x rest] | m]; simpl;
    try discriminate.
  - destruct (Hok k) as [[| x rest] ->]; simpl; discriminate.
  - destruct (Hok k) as [[| x rest] ->]; simpl; try discriminate.
    specialize (IH (GenFile (S k) [])).
    destruct (next w fuel (GenFile (S k) [])) as [evs r]. exact IH.
Qed.

(** Empty arrays are read again and again until one read finds an entry. *)
Lemma next_after_empty_reads (w : world) (x : value) (rest : list value) :
  forall j k fuel,
    (forall i, i < j -> load_entries (data_file w (k + i)) = inl []) ->
    load_entries (data_file w (k + j)) = inl (x :: rest) ->
    next w (j + fuel) (GenFile k []) =
      (map OpenFile (seq k (S j)), Yielded x (GenFile (S (k + j)) rest)).
Proof.
  induction j as [| j IH]; intros k fuel Hempty Hfull.
  - rewrite Nat.add_0_r in Hfull |- *. apply next_reload, Hfull.
  - simpl. pose proof (Hempty 0 (Nat.lt_0_succ j)) as H0.
    rewrite Nat.add_0_r in H0. rewrite H0.
    rewrite (IH (S k) fuel).
    + replace (S k + j) with (k + S j) by lia. reflexivity.
    + intros i Hi. replace (S k + i) with (k + S i) by lia.
      apply Hempty. lia.
    + replace (S k + j) with (k + S j) by lia. exact Hfull.
Qed.

(** While the file holds the empty array, [next] does not return. *)
Lemma next_spins_on_empty (w : world) :
  (forall k, load_entries (data_file w k) = inl []) ->
  forall fuel k,
    next w fuel (GenFile k []) = (map OpenFile (seq k (S fuel)), Spinning).
Proof.
  intros Hempty; induction fuel as [| fuel IH]; intros k; simpl;
    rewrite Hempty; [reflexivity |].
  rewrite (IH (S k)). reflexivity.
Qed.

(** C4, as amended.  For a data file that every read finds to hold a JSON
    array, a call of [next] on the file generator never signals the end of
    the sequence and never raises; when the array read at the cycle
    boundary is not empty it yields at once, also with no fuel; after [j]
    reads that found the empty array it yields the first entry of the next
    non-empty one, given [j] units of fuel; and when every read finds the
    empty array it does not return, whatever the fuel. *)
Theorem file_generator_never_stops (w : world) :
  (forall k, exists xs, load_entries (data_file w k) = inl xs) ->
  (forall fuel g e,
     snd (next w fuel g) <> StopIteration /\ snd (next w fuel g) <> Raised e)
  /\ (forall fuel k x rest,
        snd (next w fuel (GenFile k (x :: rest))) = Yielded x (GenFile k rest))
  /\ (forall fuel k j x rest,
        (forall i, i < j -> load_entries (data_file w (k + i)) = inl []) ->
        load_entries (data_file w (k + j)) = inl (x :: rest) ->
        snd (next w (j + fuel) (GenFile k []))
          = Yielded x (GenFile (S (k + j)) rest))
  /\ ((forall k, load_entries (data_file w k) = inl []) ->
      forall fuel k, snd (next w fuel (GenFile k [])) = Spinning).
Proof.
  intros Hok. repeat split.
  - apply next_never_stops.
  - apply next_raises_only_on_failure, Hok.
  - intros fuel k x rest. rewrite next_pending. reflexivity.
  - intros fuel k j x rest Hempty Hfull.
    rewrite (next_after_empty_reads w x rest j k fuel Hempty Hfull).
    reflexivity.
  - intros Hempty fuel k. rewrite next_spins_on_empty by assumption.
    reflexivity.
Qed.

End Generators.

(** ** The delivery loop *)

Section Delivery.

Context {lib : PyLib}.

Lemma closes_app (a b : list event) :
  closes (a ++ b) = (closes a + closes b)%nat.
Proof. unfold closes. rewrite filter_app, length_app. reflexivity. Qed.


Lemma trace_emit (evs : list event) (o : outcome) :
  trace (emit evs o) = evs ++ trace o.
Proof. destruct o; reflexivity. Qed.

Lemma status_emit (evs : list event) (o : outcome) :
  status (emit evs o) = status o.
Proof. destruct o; reflexivity. Qed.

Lemma trace_finish (evs : list event) (raised : option exn) :
  trace (finish evs raised) = evs ++ [Close].
Proof. destruct raised as [[]|]; reflexivity. Qed.

Lemma next_opens (w : world) (fuel : nat) (g : generator) :
  forallb is_open (fst (next w fuel g)) = true.
Proof.
  revert g; induction fuel as [| fuel IH]; intros [k [| x rest] | m]; simpl;
    try reflexivity.
  - destruct (load_entries (data_file w k)) as [[| x rest] | e]; reflexivity.
  - destruct (load_entries (data_file w k)) as [[| x rest] | e];
      try reflexivity.
    specialize (IH (GenFile (S k) [])).
    destruct (next w fuel (GenFile (S k) [])) as [evs r]. exact IH.
Qed.

Lemma opens_closes (evs : list event) :
  forallb is_open evs = true -> closes evs = 0%nat.
Proof.
  induction evs as [| [] evs IH]; simpl; intros H; try discriminate;
    auto.
Qed.


Lemma time_sleep_returns (secs : Z) :
  time_sleep secs = None <-> 0 <= secs <= sleep_max.
Proof.
  unfold time_sleep.
  destruct (secs <? - sleep_max) eqn:H1; destruct (sleep_max <? secs) eqn:H2;
    destruct (secs <? 0) eqn:H3; simpl;
    rewrite ?Z.ltb_lt, ?Z.ltb_ge in H1, H2, H3; unfold sleep_max in *;
    split; intros Hs; try discriminate; try reflexivity; try lia;
    exfalso; lia.
Qed.

Lemma time_sleep_raises (secs : Z) (e : exn) :
  time_sleep secs = Some e -> e = ValueError \/ e = OtherException.
Proof.
  unfold time_sleep.
  destruct ((secs <? - sleep_max) || (sleep_max <? secs));
    [| destruct (secs <? 0)]; intros [= <-]; auto.
Qed.

Lemma finish_sleep (evs : list event) (secs : Z) (e : exn) :
  time_sleep secs = Some e -> finish evs (Some e) = Exited 0 (evs ++ [Close]).
Proof.
  intros H. destruct (time_sleep_raises secs e H) as [-> | ->]; reflexivity.
Qed.

Lemma delivery_loop_S (w : world) (topic : string) (interval_secs : Z)
    (fuel i : nat) (g : generator) :
  delivery_loop w topic interval_secs (S fuel) i g =
    match interrupt w i with
    | Some BeforeSend => finish [] (Some KeyboardInterrupt)
    | after =>
        match next w fuel g with
        | (evs, Spinning) => Running evs
        | (evs, StopIteration) => finish evs None
        | (evs, Raised e) => finish evs (Some e)
        | (evs, Yielded message_dict g') =>
            let evs := evs ++ [Send topic message_dict] in
            if send_raises w i then finish evs (Some OtherException)
            else
              match after with
              | Some _ => finish evs (Some KeyboardInterrupt)
              | None =>
                  match time_sleep interval_secs with
                  | Some e => finish evs (Some e)
                  | None =>
                      emit (evs ++ [Sleep interval_secs])
                        (delivery_loop w topic interval_secs fuel (S i) g')
                  end
              end
        end
    end.
Proof. reflexivity. Qed.

Lemma closed_once_finish (evs : list event) (raised : option exn) :
  closes evs = 0%nat -> closed_once (finish evs raised).
Proof. intros H. destruct raised as [[]|]; simpl; eauto. Qed.

Lemma closed_once_emit (evs : list event) (o : outcome) :
  closes evs = 0%nat -> closed_once o -> closed_once (emit evs o).
Proof.
  intros H. destruct o as [c tr | tr]; simpl.
  - intros (evs' & -> & H'). exists (evs ++ evs'). split.
    + apply app_assoc.
    + rewrite closes_app. lia.
  - intros H'. rewrite closes_app. lia.
Qed.

Lemma delivery_loop_closed_once (w : world) (topic : string)
    (interval_secs : Z) (fuel i : nat) (g : generator) :
  closed_once (delivery_loop w topic interval_secs fuel i g).
Proof.
  revert i g; induction fuel as [| fuel IH]; intros i g; [reflexivity |].
  rewrite delivery_loop_S.
  pose proof (opens_closes _ (next_opens w fuel g)) as Hevs.
  assert (Hsend : forall v, closes (fst (next w fuel g) ++ [Send topic v])
                            = 0%nat)
    by (intros v; rewrite closes_app, Hevs; reflexivity).
  destruct (next w fuel g) as [evs r]; simpl in Hevs, Hsend.
  destruct (interrupt w i) as [[|] |];
    try (apply closed_once_finish; reflexivity);
    destruct r as [v g' | e | |]; try (apply closed_once_finish; assumption);
    try assumption; cbv zeta;
    destruct (send_raises w i); try (apply closed_once_finish; apply Hsend).
  destruct (time_sleep interval_secs);
    [apply closed_once_finish; apply Hsend |].
  apply closed_once_emit; [| apply IH].
  rewrite closes_app, Hsend. reflexivity.
Qed.

(** How [main] reaches the loop. *)
Lemma main_enters_loop (w : world) (fuel : nat) (interval_secs : Z)
    (evs : list event) (g : generator) :
  verify_services w = None ->
  get_message_interval w = inl interval_secs ->
  select_generator w (get_custom_message w) = (evs, inl g) ->
  producer_created w = true ->
  topic_ready w = true ->
  main w fuel =
    emit (evs ++ [CreateProducer; CreateTopic (get_kafka_topic w)])
      (delivery_loop w (get_kafka_topic w) interval_secs fuel 0 g).
Proof.
  intros Hv Hi Hg Hp Ht. unfold main. rewrite Hv, Hi, Hg, Hp, Ht.
  reflexivity.
Qed.





(** A [SystemExit] that leaves the generator ends the process with its
    code, after the [finally] clause closed the producer. *)
Lemma delivery_loop_exit (w : world) (topic : string) (interval_secs : Z)
    (fuel i : nat) (g : generator) (evs : list event) (c : Z) :
  interrupt w i <> Some BeforeSend ->
  next w fuel g = (evs, Raised (SystemExit c)) ->
  delivery_loop w topic interval_secs (S fuel) i g = Exited c (evs ++ [Close]).
Proof.
  intros Hi Hn. rewrite delivery_loop_S, Hn.
  destruct (interrupt w i) as [[|] |]; [congruence | reflexivity ..].
Qed.

Lemma load_entries_raises (fs : file_state) (e : exn) :
  load_entries fs = inr e ->
  e = FileNotFoundError \/ e = JSONDecodeError \/ e = ValueError
  \/ e = OtherException.
Proof.
  destruct fs as [| | text]; simpl.
  - intros [= <-]; auto.
  - intros [= <-]; auto.
  - destruct (json_loads text) as [[] |]; intros [= <-]; auto.
Qed.

(** C2.  When the generator opens the data file for the k-th time and the
    file is missing, [next] raises [SystemExit(1)]; when its text is not
    valid JSON, [SystemExit(2)]; when anything else goes wrong in the [try]
    (the file cannot be read, its JSON value is not a list),
    [SystemExit(3)].  A [SystemExit] that leaves the generator during an
    iteration of the delivery loop ends the process with that status, and
    so does [main] when the first read fails. *)
Theorem generation_exit_codes (w : world) (fuel k : nat) :
  (data_file w k = Missing ->
     next w fuel (GenFile k []) = ([OpenFile k], Raised (SystemExit 1)))
  /\ (forall text,
        data_file w k = Content text -> json_loads text = None ->
        next w fuel (GenFile k []) = ([OpenFile k], Raised (SystemExit 2)))
  /\ (forall e,
        load_entries (data_file w k) = inr e ->
        e <> FileNotFoundError -> e <> JSONDecodeError ->
        next w fuel (GenFile k []) = ([OpenFile k], Raised (SystemExit 3)))
  /\ (forall topic interval_secs i g evs c,
        interrupt w i <> Some BeforeSend ->
        next w fuel g = (evs, Raised (SystemExit c)) ->
        status (delivery_loop w topic interval_secs (S fuel) i g) = Some c)
  /\ (forall interval_secs evs c,
        verify_services w = None ->
        get_message_interval w = inl interval_secs ->
        truthy (get_custom_message w) = false ->
        data_file_exists w = true ->
        producer_created w = true ->
        topic_ready w = true ->
        interrupt w 0 <> Some BeforeSend ->
        next w fuel generate_messages = (evs, Raised (SystemExit c)) ->
        status (main w (S fuel)) = Some c).
Proof.
  repeat split.
  - intros H. apply (next_failure w fuel k FileNotFoundError).
    rewrite H. reflexivity.
  - intros text H Hj. apply (next_failure w fuel k JSONDecodeError).
    rewrite H. simpl. rewrite Hj. reflexivity.
  - intros e H H1 H2. rewrite (next_failure w fuel k e H).
    destruct (load_entries_raises _ _ H) as [-> | [-> | [-> | ->]]];
      try reflexivity; congruence.
  - intros topic iv i g evs c Hi Hn.
    rewrite (delivery_loop_exit w topic iv fuel i g evs c Hi Hn).
    reflexivity.
  - intros iv evs c Hv Hiv Hcm Hex Hp Ht Hi Hn.
    rewrite (main_enters_loop w (S fuel) iv [CheckExists] generate_messages)
      by (try assumption; unfold select_generator; rewrite Hcm, Hex;
          reflexivity).
    rewrite status_emit, (delivery_loop_exit w _ iv fuel 0 _ evs c Hi Hn).
    reflexivity.
Qed.



End Delivery.

(** ** Start-up and the choice of the source *)

Section Startup.

Context {lib : PyLib}.







(** The value [get_custom_message] returns for a variable that is set. *)
Lemma get_custom_message_set (w : world) (s : string) :
  CUSTOM_MESSAGE w = Some s ->
  s <> "" ->
  get_custom_message w =
    match json_loads s with
    | Some message_obj => message_obj
    | None => VDict [("message", VStr s)]
    end.
Proof.
  intros Hs Hne. unfold get_custom_message. rewrite Hs. simpl.
  destruct (String.eqb_spec s ""); [contradiction | reflexivity].
Qed.

Context {faults : JsonFaults}.

(** C9, as amended.  For a non-empty string in CUSTOM_MESSAGE: when the
    string is the JSON text of an object the result is that mapping; when
    [json.loads] refuses it with [JSONDecodeError] the result is the one-key
    mapping from "message" to the string.  The empty string counts as no
    custom message: the result is [None].  Resolution returns, with the
    value of [get_custom_message], whenever the string is empty or
    [json.loads] returns or raises [JSONDecodeError]; any other exception
    of [json.loads] on a non-empty string is not caught and leaves
    [get_custom_message]. *)
Theorem get_custom_message_resolution (w : world) (s : string) :
  CUSTOM_MESSAGE w = Some s ->
  (s <> "" ->
     (forall entries, json_loads s = Some (VDict entries) ->
                      get_custom_message w = VDict entries)
     /\ (json_loads s = None ->
         get_custom_message w = VDict [("message", VStr s)]))
  /\ (s = "" -> get_custom_message w = VNone)
  /\ (s = "" \/ json_loads_raises s = None ->
      get_custom_message_outcome w = inl (get_custom_message w))
  /\ (s <> "" ->
      forall e, json_loads_raises s = Some e -> e <> JSONDecodeError ->
                get_custom_message_outcome w = inr e).
Proof.
  intros Hs. split; [| split; [| split]].
  - intros Hne. rewrite (get_custom_message_set w s Hs Hne).
    split; [intros entries -> | intros ->]; reflexivity.
  - intros ->. unfold get_custom_message. rewrite Hs. reflexivity.
  - intros H. unfold get_custom_message_outcome, get_custom_message.
    rewrite Hs. destruct (truthy (VStr s)) eqn:Ht; [| reflexivity].
    destruct H as [-> | Hr]; [discriminate |].
    unfold json_loads_outcome. rewrite Hr.
    destruct (json_loads s); reflexivity.
  - intros Hne e Hr He. unfold get_custom_message_outcome. rewrite Hs.
    assert (Ht : truthy (VStr s) = true).
    { simpl. destruct (String.eqb_spec s ""); [contradiction | reflexivity]. }
    rewrite Ht. unfold json_loads_outcome. rewrite Hr.
    destruct e; try reflexivity. congruence.
Qed.



(** C3, as amended.  The fatal exits of [main] carry the statuses 1, 2 and
    3, none of them 0, and the statuses are shared: 1 for a data file that
    is missing at start-up or at a read and for a topic that cannot be
    created; 2 for a data file that is not a JSON text; 3 for a data file
    whose JSON value is not a list, for a data file that cannot be read and
    for a producer that cannot be created. *)
Theorem fatal_exit_codes (w : world) (fuel : nat) (interval_secs : Z) :
  verify_services w = None ->
  get_message_interval w = inl interval_secs ->
  (truthy (get_custom_message w) = false -> data_file_exists w = false ->
     status (main w fuel) = Some 1)
  /\ (truthy (get_custom_message w) = true \/ data_file_exists w = true ->
      (producer_created w = false -> status (main w fuel) = Some 3)
      /\ (producer_created w = true -> topic_ready w = false ->
          status (main w fuel) = Some 1))
  /\ (truthy (get_custom_message w) = false -> data_file_exists w = true ->
      producer_created w = true -> topic_ready w = true ->
      interrupt w 0 <> Some BeforeSend ->
      (data_file w 0 = Missing -> status (main w (S fuel)) = Some 1)
      /\ (forall text,
            data_file w 0 = Content text -> json_loads text = None ->
            status (main w (S fuel)) = Some 2)
      /\ (forall text v,
            data_file w 0 = Content text -> json_loads text = Some v ->
            is_list v = false ->
            status (main w (S fuel)) = Some 3)
      /\ (data_file w 0 = Unreadable -> status (main w (S fuel)) = Some 3)).
Proof.
  intros Hver Hiv. split; [| split].
  - intros Hcm Hex. unfold main, select_generator.
    rewrite Hver, Hiv, Hcm, Hex. reflexivity.
  - intros Hsel. split.
    + intros Hp. unfold main, select_generator. rewrite Hver, Hiv, Hp.
      destruct Hsel as [-> | ->]; [reflexivity |].
      destruct (truthy (get_custom_message w)); reflexivity.
    + intros Hp Ht. unfold main, select_generator. rewrite Hver, Hiv, Hp, Ht.
      destruct Hsel as [-> | ->]; [reflexivity |].
      destruct (truthy (get_custom_message w)); reflexivity.
  - intros Hcm Hex Hp Ht Hi.
    assert (Hmain : main w (S fuel) =
              emit ([CheckExists]
                    ++ [CreateProducer; CreateTopic (get_kafka_topic w)])
                (delivery_loop w (get_kafka_topic w) interval_secs (S fuel) 0
                   generate_messages)).
    { apply main_enters_loop; try assumption.
      unfold select_generator. rewrite Hcm, Hex. reflexivity. }
    rewrite Hmain, status_emit. unfold generate_messages.
    assert (Hexit : forall e c,
              load_entries (data_file w 0) = inr e ->
              generation_handler e = SystemExit c ->
              status (delivery_loop w (get_kafka_topic w) interval_secs
                        (S fuel) 0 (GenFile 0 [])) = Some c).
    { intros e c He Hc.
      rewrite (delivery_loop_exit w _ interval_secs fuel 0 _ [OpenFile 0] c Hi);
        [reflexivity |].
      rewrite (next_failure w fuel 0 e He), Hc. reflexivity. }
    split; [| split; [| split]].
    + intros H. apply (Hexit FileNotFoundError); [rewrite H |]; reflexivity.
    + intros text H Hj. apply (Hexit JSONDecodeError); [| reflexivity].
      rewrite H. simpl. rewrite Hj. reflexivity.
    + intros text v H Hj Hl. apply (Hexit ValueError); [| reflexivity].
      rewrite H. simpl. rewrite Hj.
      destruct v; try reflexivity; discriminate.
    + intros H. apply (Hexit OtherException); [rewrite H |]; reflexivity.
Qed.

End Startup.

(** ** Runs on concrete configurations *)

Section Runs.

#[local] Existing Instance reference.
#[local] Existing Instance reference_faults.

Local Open Scope nat_scope.

(** The reference decoder on the texts used below. *)
Example reference_loads :
  json_loads two_messages = Some (VList [msg "a"; msg "b"])
  /\ json_loads "0" = Some (VInt 0)
  /\ json_loads "false" = Some (VBool false)
  /\ json_loads "null" = Some VNone
  /\ json_loads "[]" = Some (VList [])
  /\ json_loads "{}" = Some (VDict [])
  /\ json_loads (dq "''") = Some (VStr "")
  /\ json_loads "0.0" = Some (VFloat (S754_zero false))
  /\ json_loads "[1, 2]" = Some (VList [VInt 1; VInt 2])
  /\ json_loads (dq "{'not': 'a list'}")
     = Some (VDict [("not"%string, VStr "a list")])
  /\ json_loads "hello" = None
  /\ json_loads "{" = None
  /\ json_loads "[1,]" = None
  /\ json_loads "" = None.
Proof. repeat split; vm_compute; reflexivity. Qed.

Example reference_int :
  int_of_str "0" = Some 0%Z /\ int_of_str " 12 " = Some 12%Z
  /\ int_of_str "-1" = Some (-1)%Z /\ int_of_str "soon" = None.
Proof. repeat split; vm_compute; reflexivity. Qed.

(** A value of BUZZ_INTERVAL_SECONDS that is no integer ends the process
    before anything is done. *)
Example interval_not_a_number :
  main (with_interval "soon" (quiet two_messages)) 5 = Exited 1 [].
Proof. vm_compute. reflexivity. Qed.

(** The end-to-end test of the specification: two messages in the file,
    no pause, five iterations. *)
Example two_messages_five_iterations :
  sent (trace (main (with_interval "0" (quiet two_messages)) 5))
    = [msg "a"; msg "b"; msg "a"; msg "b"; msg "a"].
Proof. vm_compute. reflexivity. Qed.

Example two_messages_trace :
  main (quiet two_messages) 3 =
    Running [CheckExists; CreateProducer; CreateTopic "unknown_topic";
             OpenFile 0; Send "unknown_topic" (msg "a"); Sleep 1;
             Send "unknown_topic" (msg "b"); Sleep 1;
             OpenFile 1; Send "unknown_topic" (msg "a"); Sleep 1].
Proof. vm_compute. reflexivity. Qed.

(** A send that raises in the third iteration: three sends, one [close],
    status 0. *)
Example third_send_raises :
  main (with_faults (fun i => i =? 2) (fun _ => None) (quiet two_messages)) 9 =
    Exited 0 [CheckExists; CreateProducer; CreateTopic "unknown_topic";
              OpenFile 0; Send "unknown_topic" (msg "a"); Sleep 1;
              Send "unknown_topic" (msg "b"); Sleep 1;
              OpenFile 1; Send "unknown_topic" (msg "a"); Close].
Proof. vm_compute. reflexivity. Qed.

(** An interrupt during the pause after the second send. *)
Example interrupt_after_second_send :
  main (with_faults (fun _ => false)
          (fun i => if i =? 1 then Some AfterSend else None)
          (quiet two_messages)) 9 =
    Exited 0 [CheckExists; CreateProducer; CreateTopic "unknown_topic";
              OpenFile 0; Send "unknown_topic" (msg "a"); Sleep 1;
              Send "unknown_topic" (msg "b"); Close].
Proof. vm_compute. reflexivity. Qed.

(** A data file that holds an object: status 3, where a missing file gives
    status 1. *)
Example object_in_data_file :
  main (quiet (dq "{'not': 'a list'}")) 1 =
    Exited 3 [CheckExists; CreateProducer; CreateTopic "unknown_topic";
              OpenFile 0; Close]
  /\ main (with_data_file true (fun _ => Missing) (quiet "")) 1 =
       Exited 1 [CheckExists; CreateProducer; CreateTopic "unknown_topic";
                 OpenFile 0; Close].
Proof. split; vm_compute; reflexivity. Qed.

(** A negative pause: [time.sleep] raises after the first send. *)
Example negative_interval :
  main (with_interval "-1" (quiet two_messages)) 9 =
    Exited 0 [CheckExists; CreateProducer; CreateTopic "unknown_topic";
              OpenFile 0; Send "unknown_topic" (msg "a"); Close].
Proof. vm_compute. reflexivity. Qed.

(** A file rewritten between two passes is read anew at the boundary. *)
Example file_rewritten :
  sent (trace (main (with_data_file true
                       (fun k => if k =? 0 then Content two_messages
                                 else Content (dq "[{'message':'c'}]"))
                       (quiet "")) 4))
    = [msg "a"; msg "b"; msg "c"; msg "c"].
Proof. vm_compute. reflexivity. Qed.

(** *** Counterexamples *)

(** C3 as stated fails: a data file that holds an object, a data file that
    cannot be read and a producer that cannot be created all end the
    process with status 3, and a topic that cannot be created ends it with
    status 1 like a missing data file. *)
Lemma fatal_exit_codes_collide :
  status (main (quiet (dq "{'not': 'a list'}")) 1) = Some 3%Z
  /\ status (main (with_data_file true (fun _ => Unreadable) (quiet "")) 1)
     = Some 3%Z
  /\ status (main (with_broker false true (quiet two_messages)) 1) = Some 3%Z
  /\ status (main (with_broker true false (quiet two_messages)) 1) = Some 1%Z
  /\ status (main (with_data_file true (fun _ => Missing) (quiet "")) 1)
     = Some 1%Z
  /\ status (main (with_data_file false (fun _ => Missing) (quiet "")) 1)
     = Some 1%Z.
Proof. repeat split; vm_compute; reflexivity. Qed.

(** C4 as stated fails on the empty array: whatever the fuel, [next] on a
    data file that holds [[]] yields nothing. *)
Lemma empty_array_never_yields :
  json_loads "[]" = Some (VList [])
  /\ ~ exists fuel v g,
         snd (next (quiet "[]") fuel generate_messages) = Yielded v g.
Proof.
  split; [reflexivity |].
  intros (fuel & v & g & H). unfold generate_messages in H.
  rewrite (next_spins_on_empty (quiet "[]")) in H by reflexivity.
  discriminate.
Qed.


(** C9 as stated fails twice.  The empty string is not a JSON text, and
    the result is [None], not a mapping.  On the text of an integer of 4301
    digits [json.loads] raises [ValueError], which line 73 does not catch:
    resolution does not succeed. *)
Lemma custom_message_resolution_fails :
  (json_loads "" = None
   /\ get_custom_message (with_custom_message "" (quiet two_messages)) = VNone
   /\ get_custom_message (with_custom_message "" (quiet two_messages))
      <> VDict [("message"%string, VStr "")])
  /\ (json_loads_raises (ones 4301) = Some ValueError
      /\ get_custom_message_outcome
           (with_custom_message (ones 4301) (quiet two_messages))
         = inr ValueError).
Proof.
  split.
  - repeat split; try reflexivity. discriminate.
  - split; vm_compute; reflexivity.
Qed.

(** *** The theorems at concrete configurations *)

Lemma file_generator_cycles_witness :
  nth_next (quiet two_messages) 0 4 generate_messages =
    ([OpenFile 0; OpenFile 1; OpenFile 2],
     Yielded (msg "a") (GenFile 3 [msg "b"])).
Proof.
  apply (file_generator_cycles (quiet two_messages) two_messages
           [msg "a"; msg "b"]).
  - intros k. reflexivity.
  - vm_compute. reflexivity.
  - discriminate.
Defined.

Lemma generation_exit_codes_witness :
  next (with_data_file true (fun _ => Missing) (quiet "")) 0 (GenFile 7 [])
    = ([OpenFile 7], Raised (SystemExit 1))
  /\ next (quiet "{") 0 (GenFile 7 [])
     = ([OpenFile 7], Raised (SystemExit 2))
  /\ next (quiet "5") 0 (GenFile 7 [])
     = ([OpenFile 7], Raised (SystemExit 3))
  /\ status (main (quiet "{") 1) = Some 2%Z.
Proof.
  split; [| split; [| split]].
  - apply (generation_exit_codes
             (with_data_file true (fun _ => Missing) (quiet "")) 0 7).
    reflexivity.
  - apply (generation_exit_codes (quiet "{") 0 7) with (text := "{"%string);
      reflexivity.
  - apply (generation_exit_codes (quiet "5") 0 7) with (e := ValueError);
      [reflexivity | discriminate | discriminate].
  - apply (generation_exit_codes (quiet "{") 0 0)
      with (interval_secs := 1%Z) (evs := [OpenFile 0]);
      try reflexivity; discriminate.
Defined.

Lemma fatal_exit_codes_witness :
  status (main (with_broker false true (quiet two_messages)) 1) = Some 3%Z
  /\ status (main (with_broker true false (quiet two_messages)) 1) = Some 1%Z
  /\ status (main (quiet "5") 1) = Some 3%Z.
Proof.
  split; [| split].
  - destruct (fatal_exit_codes (with_broker false true (quiet two_messages))
                1 1 eq_refl eq_refl) as (_ & H & _).
    apply H; [right |]; reflexivity.
  - destruct (fatal_exit_codes (with_broker true false (quiet two_messages))
                1 1 eq_refl eq_refl) as (_ & H & _).
    apply H; [right | |]; reflexivity.
  - destruct (fatal_exit_codes (quiet "5") 0 1 eq_refl eq_refl)
      as (_ & _ & H).
    assert (Hi : interrupt (quiet "5") 0 <> Some BeforeSend) by discriminate.
    destruct (H eq_refl eq_refl eq_refl eq_refl Hi) as (_ & _ & H3 & _).
    apply (H3 "5"%string (VInt 5)); reflexivity.
Defined.

Lemma file_generator_never_stops_witness :
  snd (next (quiet two_messages) 0 generate_messages)
    = Yielded (msg "a") (GenFile 1 [msg "b"])
  /\ snd (next (quiet two_messages) 0 generate_messages) <> StopIteration.
Proof.
  assert (Hok : forall k, exists xs,
            load_entries (data_file (quiet two_messages) k) = inl xs).
  { intros k. exists [msg "a"; msg "b"]. vm_compute. reflexivity. }
  destruct (file_generator_never_stops (quiet two_messages) Hok)
    as (Hstop & _ & Hyield & _).
  split.
  - apply (Hyield 0 0 0 (msg "a") [msg "b"]).
    + intros i Hi. lia.
    + vm_compute. reflexivity.
  - apply (Hstop 0 generate_messages FileNotFoundError).
Defined.




Lemma get_custom_message_resolution_witness :
  get_custom_message
    (with_custom_message (dq "{'message': 'hi', 'author': 'Eve'}")
       (quiet two_messages))
    = VDict [("message"%string, VStr "hi"); ("author"%string, VStr "Eve")]
  /\ get_custom_message (with_custom_message "hello" (quiet two_messages))
     = VDict [("message"%string, VStr "hello")]
  /\ get_custom_message_outcome
       (with_custom_message "hello" (quiet two_messages))
     = inl (get_custom_message
              (with_custom_message "hello" (quiet two_messages)))
  /\ get_custom_message_outcome
       (with_custom_message (ones 4301) (quiet two_messages))
     = inr ValueError.
Proof.
  split; [| split; [| split]].
  - apply (get_custom_message_resolution
             (with_custom_message (dq "{'message': 'hi', 'author': 'Eve'}")
                (quiet two_messages))
             (dq "{'message': 'hi', 'author': 'Eve'}")).
    + reflexivity.
    + discriminate.
    + vm_compute. reflexivity.
  - apply (get_custom_message_resolution
             (with_custom_message "hello" (quiet two_messages)) "hello").
    + reflexivity.
    + discriminate.
    + vm_compute. reflexivity.
  - apply (get_custom_message_resolution
             (with_custom_message "hello" (quiet two_messages)) "hello").
    + reflexivity.
    + right. vm_compute. reflexivity.
  - apply (get_custom_message_resolution
             (with_custom_message (ones 4301) (quiet two_messages))
             (ones 4301)).
    + reflexivity.
    + discriminate.
    + vm_compute. reflexivity.
    + discriminate.
Defined.


End Runs.

(** * Further properties of the producer *)

Section Outcomes.

Lemma emit_exited (evs : list event) (o : outcome) (c : Z) (tr : list event) :
  emit evs o = Exited c tr ->
  exists tr', o = Exited c tr' /\ tr = evs ++ tr'.
Proof.
  destruct o as [c' tr' | tr']; simpl; [| discriminate].
  intros [= -> <-]. eauto.
Qed.

End Outcomes.

Section Invariants.

Context {lib : PyLib}.

Lemma opens_forall (P : event -> Prop) (evs : list event) :
  (forall k, P (OpenFile k)) ->
  forallb is_open evs = true ->
  Forall P evs.
Proof.
  intros HP. induction evs as [| [] evs IH]; simpl; intros H;
    try discriminate; constructor; auto.
Qed.

(** The events of the delivery loop: opening the data file, sending to the
    topic, pausing for the interval when it is not negative, closing. *)
Lemma delivery_loop_events (w : world) (topic : string) (interval_secs : Z)
    (P : event -> Prop) :
  (forall k, P (OpenFile k)) ->
  (forall v, P (Send topic v)) ->
  (0 <= interval_secs -> P (Sleep interval_secs)) ->
  P Close ->
  forall fuel i g,
    Forall P (trace (delivery_loop w topic interval_secs fuel i g)).
Proof.
  intros Hopen Hsend Hsleep Hclose.
  induction fuel as [| fuel IH]; intros i g; [constructor |].
  rewrite delivery_loop_S.
  pose proof (opens_forall P _ Hopen (next_opens w fuel g)) as Hevs.
  destruct (next w fuel g) as [evs r]; simpl in Hevs.
  assert (Hfin : forall evs' r', Forall P evs' -> Forall P (trace (finish evs' r'))).
  { intros evs' r' H. rewrite trace_finish. apply Forall_app.
    split; [exact H | repeat constructor; exact Hclose]. }
  assert (Hs : forall v, Forall P (evs ++ [Send topic v])).
  { intros v. apply Forall_app. split; [exact Hevs | repeat constructor; apply Hsend]. }
  destruct (interrupt w i) as [[|] |]; [apply Hfin; constructor | |];
    destruct r as [v g' | e | |]; try (apply Hfin; assumption);
    try exact Hevs; cbv zeta;
    destruct (send_raises w i); try (apply Hfin; apply Hs).
  destruct (time_sleep interval_secs) eqn:Hsl; [apply Hfin; apply Hs |].
  apply time_sleep_returns in Hsl. destruct Hsl as [Hpos _].
  rewrite trace_emit. apply Forall_app. split; [| apply IH].
  apply Forall_app. split; [apply Hs | repeat constructor; auto].
Qed.

(** The events of a run. *)
Lemma main_events (w : world) (P : event -> Prop) :
  P CheckExists ->
  P CreateProducer ->
  P (CreateTopic (get_kafka_topic w)) ->
  (forall k, P (OpenFile k)) ->
  (forall v, P (Send (get_kafka_topic w) v)) ->
  (forall interval_secs,
     get_message_interval w = inl interval_secs -> 0 <= interval_secs ->
     P (Sleep interval_secs)) ->
  P Close ->
  forall fuel, Forall P (trace (main w fuel)).
Proof.
  intros Hc Hp Ht Hopen Hsend Hsleep Hclose fuel. unfold main.
  destruct (verify_services w); [constructor |].
  destruct (get_message_interval w) as [iv | e]; [| constructor].
  assert (Hsel : Forall P (fst (select_generator w (get_custom_message w)))).
  { unfold select_generator.
    destruct (truthy (get_custom_message w)); [constructor |].
    destruct (data_file_exists w); repeat constructor; exact Hc. }
  destruct (select_generator w (get_custom_message w)) as [evs [g | e]];
    simpl in Hsel; [| exact Hsel].
  destruct (producer_created w); simpl negb; cbv iota;
    [| apply Forall_app; split; [exact Hsel | repeat constructor; exact Hp]].
  destruct (topic_ready w); simpl negb; cbv iota;
    [| apply Forall_app; split; [exact Hsel | repeat constructor; assumption]].
  rewrite trace_emit. apply Forall_app. split.
  - apply Forall_app; split; [exact Hsel | repeat constructor; assumption].
  - apply delivery_loop_events; auto.
Qed.

(** X3.  Every message of a run is sent to one topic, the topic [main]
    created: the value of BUZZ_TOPIC as it is when the variable is set, the
    empty string included, and "unknown_topic" when it is not. *)
Theorem sends_on_resolved_topic (w : world) (fuel : nat) :
  Forall (on_topic (get_kafka_topic w)) (trace (main w fuel))
  /\ (forall topic, BUZZ_TOPIC w = Some topic ->
        Forall (on_topic topic) (trace (main w fuel)))
  /\ (BUZZ_TOPIC w = None ->
      Forall (on_topic "unknown_topic") (trace (main w fuel))).
Proof.
  assert (H : Forall (on_topic (get_kafka_topic w)) (trace (main w fuel))).
  { apply main_events; simpl; auto. }
  split; [exact H |]. unfold get_kafka_topic in H.
  split; [intros topic Ht | intros Ht]; rewrite Ht in H; exact H.
Qed.

(** X4.  When BUZZ_INTERVAL_SECONDS is unset or an integer, every pause of
    a run lasts that many seconds (one second when unset) and no pause of
    negative length is ever completed; when it is set to something [int]
    refuses, the run does nothing at all. *)
Theorem pauses_last_the_interval (w : world) (fuel : nat) :
  match get_message_interval w with
  | inl interval_secs =>
      Forall (paced interval_secs) (trace (main w fuel))
      /\ (BUZZ_INTERVAL_SECONDS w = None -> interval_secs = 1)
  | inr _ => trace (main w fuel) = []
  end.
Proof.
  destruct (get_message_interval w) as [iv | e] eqn:Hiv.
  - split.
    + apply main_events; simpl; auto.
      intros iv' Hiv' Hpos. rewrite Hiv in Hiv'. injection Hiv' as ->. auto.
    + intros Hnone. unfold get_message_interval in Hiv. rewrite Hnone in Hiv.
      congruence.
  - unfold main. rewrite Hiv. destruct (verify_services w); reflexivity.
Qed.







(** X6.  With a negative interval the loop ends at its first pause:
    [time.sleep] raises after the send, the run ends with status 0 after
    that one send and [close]. *)
Theorem negative_interval_stops_after_one_send (w : world) (topic : string)
    (interval_secs : Z) (fuel i : nat) (g g' : generator)
    (evs : list event) (v : value) :
  interval_secs < 0 ->
  interrupt w i = None ->
  send_raises w i = false ->
  next w fuel g = (evs, Yielded v g') ->
  delivery_loop w topic interval_secs (S fuel) i g
    = Exited 0 (evs ++ [Send topic v; Close]).
Proof.
  intros Hneg Hi Hs Hn. rewrite delivery_loop_S, Hi, Hn, Hs. cbv zeta.
  destruct (time_sleep interval_secs) as [e |] eqn:Hsl;
    [| apply time_sleep_returns in Hsl; lia].
  rewrite (finish_sleep _ interval_secs e Hsl), <- app_assoc. reflexivity.
Qed.

(** X10.  With an interval of more than 9223372036 seconds the loop ends
    at its first pause: [time.sleep] raises [OverflowError] after the send,
    the run ends with status 0 after that one send and [close]. *)
Theorem overlong_interval_stops_after_one_send (w : world) (topic : string)
    (interval_secs : Z) (fuel i : nat) (g g' : generator)
    (evs : list event) (v : value) :
  sleep_max < interval_secs ->
  interrupt w i = None ->
  send_raises w i = false ->
  next w fuel g = (evs, Yielded v g') ->
  delivery_loop w topic interval_secs (S fuel) i g
    = Exited 0 (evs ++ [Send topic v; Close]).
Proof.
  intros Hlong Hi Hs Hn. rewrite delivery_loop_S, Hi, Hn, Hs. cbv zeta.
  destruct (time_sleep interval_secs) as [e |] eqn:Hsl;
    [| apply time_sleep_returns in Hsl; lia].
  rewrite (finish_sleep _ interval_secs e Hsl), <- app_assoc. reflexivity.
Qed.

End Invariants.

Section Statuses.

Context {lib : PyLib}.

Lemma get_message_interval_raises (w : world) (e : exn) :
  get_message_interval w = inr e -> e = ValueError.
Proof.
  unfold get_message_interval.
  destruct (BUZZ_INTERVAL_SECONDS w) as [s |]; [| discriminate].
  destruct (int_of_str s); [discriminate | congruence].
Qed.

(** What [next] raises is the [SystemExit] of a failed read. *)
Lemma next_raised_cause (w : world) :
  forall fuel g evs e,
    next w fuel g = (evs, Raised e) ->
    exists k err,
      load_entries (data_file w k) = inr err /\ e = generation_handler err.
Proof.
  induction fuel as [| fuel IH]; intros [k [| x rest] | m] evs e Hn;
    try (rewrite next_pending in Hn; discriminate);
    try (rewrite next_custom in Hn; discriminate);
    simpl in Hn;
    destruct (load_entries (data_file w k)) as [[| x rest] | err] eqn:Hl;
    try discriminate.
  - injection Hn as _ <-. eauto.
  - destruct (next w fuel (GenFile (S k) [])) as [evs0 r0] eqn:Hn0.
    injection Hn as _ ->. eauto.
  - injection Hn as _ <-. eauto.
Qed.

Lemma next_keeps_kind (w : world) (fuel : nat) (g g' : generator)
    (evs : list event) (v : value) :
  next w fuel g = (evs, Yielded v g') ->
  (exists k rest, g' = GenFile k rest) ->
  exists k rest, g = GenFile k rest.
Proof.
  destruct g as [k rest | m]; [eauto |].
  rewrite next_custom. intros [= _ _ <-] (k & rest & H). discriminate.
Qed.

Lemma handler_status (err : exn) (c : Z) (fs : file_state) :
  load_entries fs = inr err ->
  generation_handler err = SystemExit c ->
  c = 1 \/ c = 2 \/ c = 3.
Proof.
  intros Hl Hc.
  destruct (load_entries_raises _ _ Hl) as [-> | [-> | [-> | ->]]];
    injection Hc as <-; auto.
Qed.

(** The loop ends with status 0, or with the status of a failed read of
    the file generator. *)
Lemma delivery_loop_status (w : world) (topic : string) (interval_secs : Z) :
  forall fuel i g c tr,
    delivery_loop w topic interval_secs fuel i g = Exited c tr ->
    c = 0
    \/ ((exists k rest, g = GenFile k rest)
        /\ exists k err,
             load_entries (data_file w k) = inr err
             /\ generation_handler err = SystemExit c).
Proof.
  induction fuel as [| fuel IH]; intros i g c tr H; [discriminate |].
  rewrite delivery_loop_S in H.
  destruct (interrupt w i) as [[|] |];
    [simpl in H; injection H as <- _; auto | |].
  all: destruct (next w fuel g) as [evs r] eqn:Hn.
  all: destruct r as [v g' | e | |]; try discriminate.
  all: try (simpl in H; injection H as <- _; left; reflexivity).
  all: try (destruct (next_raised_cause w fuel g evs e Hn) as (k & err & Hl & ->);
            destruct (load_entries_raises _ _ Hl) as [-> | [-> | [-> | ->]]];
            simpl in H; injection H as <- _; right;
            (split;
             [destruct g as [k0 rest0 | m];
                [eauto | rewrite next_custom in Hn; discriminate]
             | exists k; eexists; split; [exact Hl | reflexivity]])).
  all: cbv zeta in H; destruct (send_raises w i);
    try (simpl in H; injection H as <- _; left; reflexivity).
  destruct (time_sleep interval_secs) as [e |] eqn:Hsl;
    [rewrite (finish_sleep _ interval_secs e Hsl) in H;
     injection H as <- _; auto |].
  destruct (emit_exited _ _ _ _ H) as (tr' & Hloop & _).
  destruct (IH _ _ _ _ Hloop) as [-> | [Hk Hc]]; [auto |].
  right. split; [| exact Hc]. exact (next_keeps_kind w fuel g g' evs v Hn Hk).
Qed.

(** X7.  When [verify_services] lets the run start, status 0 is reached
    only through the [finally] clause: a run that ends with status 0 closed
    the producer, once, as the last thing it did. *)
Theorem clean_exit_closed_producer (w : world) (fuel : nat)
    (tr : list event) :
  verify_services w = None ->
  main w fuel = Exited 0 tr ->
  exists evs, tr = evs ++ [Close] /\ closes evs = 0%nat.
Proof.
  intros Hv H. unfold main in H. rewrite Hv in H.
  destruct (get_message_interval w) as [iv | e] eqn:Hiv;
    [| rewrite (get_message_interval_raises w e Hiv) in H; discriminate].
  unfold select_generator in H.
  destruct (truthy (get_custom_message w));
    [| destruct (data_file_exists w); simpl negb in H; cbv iota in H;
       [| discriminate]];
    (destruct (producer_created w); simpl negb in H; cbv iota in H;
       [| discriminate]);
    (destruct (topic_ready w); simpl negb in H; cbv iota in H;
       [| discriminate]).
  all: destruct (emit_exited _ _ _ _ H) as (tr' & Hloop & ->).
  all: match type of Hloop with
       | delivery_loop _ ?t _ _ _ ?g = _ =>
           pose proof (delivery_loop_closed_once w t iv fuel 0 g) as Hc
       end;
    rewrite Hloop in Hc; destruct Hc as (evs & -> & Hc).
  all: eexists; split; [rewrite app_assoc; reflexivity |].
  all: rewrite closes_app, Hc; reflexivity.
Qed.

(** X8.  Status 2 has one cause: the run took the file branch and a read
    found a data file whose text [json.load] refused. *)
Theorem status_two_means_invalid_json (w : world) (fuel : nat)
    (tr : list event) :
  verify_services w = None ->
  main w fuel = Exited 2 tr ->
  truthy (get_custom_message w) = false
  /\ data_file_exists w = true
  /\ exists k text, data_file w k = Content text /\ json_loads text = None.
Proof.
  intros Hv H. unfold main in H. rewrite Hv in H.
  destruct (get_message_interval w) as [iv | e] eqn:Hiv;
    [| rewrite (get_message_interval_raises w e Hiv) in H; discriminate].
  unfold select_generator in H.
  destruct (truthy (get_custom_message w)).
  - exfalso.
    destruct (producer_created w); [| discriminate].
    destruct (topic_ready w); [| discriminate].
    simpl negb in H; cbv iota in H.
    destruct (emit_exited _ _ _ _ H) as (tr' & Hloop & _).
    destruct (delivery_loop_status w _ iv _ _ _ _ _ Hloop)
      as [? | [(k & rest & Hk) _]]; discriminate.
  - destruct (data_file_exists w); [| discriminate].
    destruct (producer_created w); [| discriminate].
    destruct (topic_ready w); [| discriminate].
    simpl negb in H; cbv iota in H.
    destruct (emit_exited _ _ _ _ H) as (tr' & Hloop & _).
    destruct (delivery_loop_status w _ iv _ _ _ _ _ Hloop)
      as [? | [_ (k & err & Hl & Hc)]]; [discriminate |].
    repeat split. exists k.
    destruct (data_file w k) as [| | text]; simpl in Hl.
    + injection Hl as <-. discriminate.
    + injection Hl as <-. discriminate.
    + exists text. split; [reflexivity |].
      destruct (json_loads text) as [[] |]; try reflexivity;
        try discriminate Hl; injection Hl as <-; discriminate Hc.
Qed.

(** X9.  A run that ended without closing the producer ended during
    start-up: it sent nothing and opened no file.  Such is the run in which
    [create_kafka_topic] raises: the producer was created and is left
    open. *)
Theorem unclosed_runs_ended_at_startup (w : world) (fuel : nat) :
  (forall c tr,
     main w fuel = Exited c tr -> closes tr = 0%nat ->
     forallb is_startup tr = true /\ sent tr = [])
  /\ (forall interval_secs evs g,
        verify_services w = None ->
        get_message_interval w = inl interval_secs ->
        select_generator w (get_custom_message w) = (evs, inl g) ->
        producer_created w = true ->
        topic_ready w = false ->
        main w fuel
          = Exited 1 (evs ++ [CreateProducer; CreateTopic (get_kafka_topic w)])
        /\ closes (trace (main w fuel)) = 0%nat).
Proof.
  split.
  - intros c tr H Hc.
    assert (Hpre : forall tr', forallb is_startup tr' = true ->
              forallb is_startup tr' = true /\ sent tr' = []).
    { intros tr' Hs. split; [exact Hs |].
      induction tr' as [| [] tr' IH]; simpl in Hs |- *; try discriminate; auto. }
    unfold main in H.
    destruct (verify_services w); [injection H as _ <-; apply Hpre; reflexivity |].
    destruct (get_message_interval w) as [iv | e];
      [| injection H as _ <-; apply Hpre; reflexivity].
    unfold select_generator in H.
    destruct (truthy (get_custom_message w));
      [| destruct (data_file_exists w); simpl negb in H; cbv iota in H;
         [| injection H as _ <-; apply Hpre; reflexivity]];
      (destruct (producer_created w); simpl negb in H; cbv iota in H;
         [| injection H as _ <-; apply Hpre; reflexivity]);
      (destruct (topic_ready w); simpl negb in H; cbv iota in H;
         [| injection H as _ <-; apply Hpre; reflexivity]).
    all: exfalso; destruct (emit_exited _ _ _ _ H) as (tr' & Hloop & ->).
    all: match type of Hloop with
         | delivery_loop _ ?t _ _ _ ?g = _ =>
             pose proof (delivery_loop_closed_once w t iv fuel 0 g) as Hcl
         end;
      rewrite Hloop in Hcl; destruct Hcl as (evs & -> & _).
    all: rewrite !closes_app in Hc; change (closes [Close]) with 1%nat in Hc;
      lia.
  - intros iv evs g Hv Hiv Hsel Hp Ht.
    assert (Hm : main w fuel
                 = Exited 1 (evs ++ [CreateProducer;
                                     CreateTopic (get_kafka_topic w)])).
    { unfold main. rewrite Hv, Hiv, Hsel, Hp, Ht. reflexivity. }
    split; [exact Hm |]. rewrite Hm. simpl. rewrite closes_app.
    assert (He : closes evs = 0%nat).
    { unfold select_generator in Hsel.
      destruct (truthy (get_custom_message w)); [injection Hsel as <- _; reflexivity |].
      destruct (data_file_exists w); injection Hsel as <-; reflexivity. }
    rewrite He. reflexivity.
Qed.

End Statuses.

Section Sources.

Context {lib : PyLib}.

(** The generators and the loop do not read CUSTOM_MESSAGE. *)
Lemma delivery_loop_without (w : world) (topic : string) (interval_secs : Z)
    (fuel i : nat) (g : generator) :
  delivery_loop (without_custom_message w) topic interval_secs fuel i g
    = delivery_loop w topic interval_secs fuel i g.
Proof. reflexivity. Qed.

(** X11.  A custom message that resolves to a value false for Python is
    ignored altogether: the run is the run without CUSTOM_MESSAGE, event
    for event.  The empty string and the JSON texts of null, false, 0, an
    empty string, list or object all behave as if the variable were not
    set. *)
Theorem falsy_custom_message_is_ignored (w : world) (fuel : nat) :
  truthy (get_custom_message w) = false ->
  main w fuel = main (without_custom_message w) fuel.
Proof.
  intros Hf. unfold main, select_generator.
  change (verify_services (without_custom_message w))
    with (verify_services w).
  change (get_message_interval (without_custom_message w))
    with (get_message_interval w).
  change (get_kafka_topic (without_custom_message w))
    with (get_kafka_topic w).
  change (get_custom_message (without_custom_message w)) with VNone.
  change (data_file_exists (without_custom_message w))
    with (data_file_exists w).
  change (producer_created (without_custom_message w))
    with (producer_created w).
  change (topic_ready (without_custom_message w)) with (topic_ready w).
  rewrite Hf. simpl truthy. cbv iota.
  destruct (verify_services w); [reflexivity |].
  destruct (get_message_interval w) as [iv | e]; [| reflexivity].
  destruct (data_file_exists w); [| reflexivity].
  simpl negb. cbv iota.
  destruct (producer_created w); [| reflexivity].
  destruct (topic_ready w); [| reflexivity].
  simpl negb. cbv iota. rewrite delivery_loop_without. reflexivity.
Qed.


Lemma nth_next_pending (w : world) (fuel k : nat) :
  forall (rest : list value) (j : nat),
    (j < length rest)%nat ->
    nth_next w fuel j (GenFile k rest) =
      ([], Yielded (nth j rest VNone) (GenFile k (skipn (S j) rest))).
Proof.
  induction rest as [| x rest IH]; intros j Hj; simpl in Hj; [lia |].
  destruct j as [| j].
  - simpl. rewrite next_pending. reflexivity.
  - simpl nth_next. rewrite next_pending, (IH j) by lia. reflexivity.
Qed.

(** X2.  A pass yields the entries of the list read at its cycle boundary,
    in order, with that one [open]; what the data file holds while the
    pass is under way plays no part.  The call after the last entry opens
    the file again. *)
Theorem pass_yields_loaded_entries (w : world) (fuel k : nat)
    (json_data : list value) :
  load_entries (data_file w k) = inl json_data ->
  (forall j,
     (j < length json_data)%nat ->
     nth_next w fuel j (GenFile k []) =
       ([OpenFile k],
        Yielded (nth j json_data VNone)
          (GenFile (S k) (skipn (S j) json_data))))
  /\ (json_data <> [] ->
      exists evs,
        fst (nth_next w fuel (length json_data) (GenFile k []))
          = [OpenFile k; OpenFile (S k)] ++ evs).
Proof.
  intros Hl. split.
  - intros j Hj. destruct json_data as [| x rest]; [simpl in Hj; lia |].
    destruct j as [| j].
    + simpl. apply next_reload, Hl.
    + simpl nth_next. rewrite (next_reload w fuel k x rest Hl).
      simpl in Hj. rewrite (nth_next_pending w fuel (S k) rest j) by lia.
      reflexivity.
  - intros Hne. destruct json_data as [| x rest]; [congruence |].
    simpl nth_next. rewrite (next_reload w fuel k x rest Hl).
    assert (Hlast : forall l,
              exists evs,
                fst (nth_next w fuel (length l) (GenFile (S k) l))
                  = OpenFile (S k) :: evs).
    { induction l as [| y l IH].
      - simpl. destruct fuel; simpl;
          destruct (load_entries (data_file w (S k))) as [[| z zs] | e];
          try (eexists; reflexivity).
        destruct (next w fuel (GenFile (S (S k)) [])) as [evs r].
        eexists; reflexivity.
      - destruct IH as [evs IH]. simpl nth_next. rewrite next_pending.
        destruct (nth_next w fuel (length l) (GenFile (S k) l)) as [evs' r].
        simpl in IH |- *. eauto. }
    destruct (Hlast rest) as [evs Hevs].
    destruct (nth_next w fuel (length rest) (GenFile (S k) rest)) as [evs' r].
    simpl in Hevs |- *. rewrite Hevs. eauto.
Qed.

End Sources.

(** * Properties of the consumer *)

Section Stall.

Import Consumer.

Lemma digits2_bounds (m : positive) :
  2 ^ (Zpos (digits2_pos m) - 1) <= Zpos m < 2 ^ Zpos (digits2_pos m).
Proof.
  induction m as [m IH | m IH |]; simpl digits2_pos.
  - rewrite Pos2Z.inj_succ, Z.pow_succ_r by lia.
    replace (Z.succ (Zpos (digits2_pos m)) - 1)
      with (Z.succ (Zpos (digits2_pos m) - 1)) by lia.
    rewrite Z.pow_succ_r by lia. lia.
  - rewrite Pos2Z.inj_succ, Z.pow_succ_r by lia.
    replace (Z.succ (Zpos (digits2_pos m)) - 1)
      with (Z.succ (Zpos (digits2_pos m) - 1)) by lia.
    rewrite Z.pow_succ_r by lia. lia.
  - simpl. lia.
Qed.

(** The mantissa of a binary64 float has at most 53 bits, and exactly 53
    above the least exponent. *)
Lemma valid_mantissa (s : bool) (m : positive) (e : Z) :
  valid_binary 53 1024 (S754_finite s m e) = true ->
  Zpos m < 2 ^ 53 /\ (-1074 < e -> 2 ^ 52 <= Zpos m).
Proof.
  unfold valid_binary, bounded, canonical_mantissa, fexp, emin.
  intros H. apply andb_prop in H. destruct H as [H _].
  apply Z.eqb_eq in H. pose proof (digits2_bounds m) as [Hlo Hhi].
  assert (Hd : Zpos (digits2_pos m) <= 53) by lia.
  split.
  - apply Z.lt_le_trans with (1 := Hhi). apply Z.pow_le_mono_r; lia.
  - intros He. assert (Zpos (digits2_pos m) = 53) as Heq by lia.
    rewrite Heq in Hlo. exact Hlo.
Qed.

Lemma SFleb_same_exponent (a b : positive) (e : Z) :
  SFleb (S754_finite false a e) (S754_finite false b e)
    = (Zpos a <=? Zpos b).
Proof.
  unfold SFleb, SFcompare. rewrite Z.compare_refl.
  change (Pos.compare_cont Eq a b) with (Pos.compare a b).
  destruct (Pos.compare_spec a b); symmetry;
    [apply Z.leb_le | apply Z.leb_le | apply Z.leb_gt]; lia.
Qed.

Lemma SFleb_exponents (a b : positive) (e1 e2 : Z) :
  e1 < e2 ->
  SFleb (S754_finite false a e1) (S754_finite false b e2) = true
  /\ SFleb (S754_finite false b e2) (S754_finite false a e1) = false.
Proof.
  intros H. unfold SFleb, SFcompare.
  assert (H1 : (e1 ?= e2) = Lt) by (apply Z.compare_lt_iff; lia).
  assert (H2 : (e2 ?= e1) = Gt) by (apply Z.compare_gt_iff; lia).
  rewrite H1, H2. split; reflexivity.
Qed.

(** X13.  For a binary64 temperature [m * 2^e], [is_food_stall] is true
    exactly when the temperature is positive and its exact value lies
    between 150 and 190, both bounds included: the temperatures above 170
    up to 190 are in the range. *)
Theorem is_food_stall_range (s : bool) (m : positive) (e : Z) :
  valid_binary 53 1024 (S754_finite s m e) = true ->
  is_food_stall (S754_finite s m e) = true
  <-> s = false
      /\ 150 * denominator e <= numerator m e <= 190 * denominator e.
Proof.
  intros Hvalid. destruct (valid_mantissa s m e Hvalid) as [Hhi Hlo].
  unfold is_food_stall.
  replace (float_of_int 150)
    with (S754_finite false 5277655813324800 (-45)) by reflexivity.
  replace (float_of_int 190)
    with (S754_finite false 6685030696878080 (-45)) by reflexivity.
  unfold numerator, denominator.
  assert (H52 : 2 ^ 52 = 4503599627370496) by reflexivity.
  assert (H53 : 2 ^ 53 = 9007199254740992) by reflexivity.
  rewrite H53 in Hhi. rewrite H52 in Hlo. clear H52 H53.
  destruct s.
  { split; [discriminate | intros [? _]; discriminate]. }
  destruct (Z.lt_trichotomy (-45) e) as [Hlt | [<- | Hgt]].
  - destruct (SFleb_exponents 6685030696878080 m (-45) e Hlt) as [_ ->].
    rewrite andb_false_r.
    split; [discriminate | intros [_ [_ Hle]]; exfalso].
    specialize (Hlo ltac:(lia)).
    destruct (Z.le_gt_cases 0 e) as [Hpos | Hneg].
    + rewrite (Z.max_l e 0), (Z.max_r (- e) 0) in Hle by lia.
      assert (H1 : 2 ^ 0 <= 2 ^ e) by (apply Z.pow_le_mono_r; lia).
      rewrite Z.pow_0_r in Hle, H1. nia.
    + rewrite (Z.max_r e 0), (Z.max_l (- e) 0) in Hle by lia.
      assert (H1 : 2 ^ (- e) <= 2 ^ 44) by (apply Z.pow_le_mono_r; lia).
      assert (H44 : 2 ^ 44 = 17592186044416) by reflexivity.
      rewrite H44 in H1. rewrite Z.pow_0_r in Hle. lia.
  - rewrite !SFleb_same_exponent.
    replace (Z.max (-45) 0) with 0 by reflexivity.
    replace (Z.max (- -45) 0) with 45 by reflexivity.
    assert (H45 : 2 ^ 45 = 35184372088832) by reflexivity.
    rewrite H45, Z.pow_0_r. clear H45.
    rewrite andb_true_iff, !Z.leb_le.
    split; [intros [? ?]; split; [reflexivity | lia] | intros [_ ?]; lia].
  - destruct (SFleb_exponents m 5277655813324800 e (-45) Hgt) as [_ ->].
    split; [discriminate | intros [_ [Hle _]]; exfalso].
    rewrite (Z.max_r e 0), (Z.max_l (- e) 0) in Hle by lia.
    assert (H1 : 2 ^ 46 <= 2 ^ (- e)) by (apply Z.pow_le_mono_r; lia).
    assert (H46 : 2 ^ 46 = 70368744177664) by reflexivity.
    rewrite H46 in H1. rewrite Z.pow_0_r in Hle. lia.
Qed.

(** X14.  Only a positive finite temperature is in the stall range: NaN,
    the infinities, the zeros and the negative numbers are not. *)
Theorem is_food_stall_positive_finite (temp : spec_float) :
  is_food_stall temp = true ->
  exists m e, temp = S754_finite false m e.
Proof.
  unfold is_food_stall.
  replace (float_of_int 150)
    with (S754_finite false 5277655813324800 (-45)) by reflexivity.
  replace (float_of_int 190)
    with (S754_finite false 6685030696878080 (-45)) by reflexivity.
  destruct temp as [s | s | | s m e]; try discriminate.
  - destruct s; discriminate.
  - destruct s; [discriminate | eauto].
Qed.

End Stall.

Section Rows.

Import Consumer.

Context {lib : FloatLib}.

Lemma consume_row_returns (r : row) (line : log_line) :
  consume_row r = inl line <-> logged r line.
Proof.
  unfold consume_row, logged, line_for, time_of. split.
  - intros H.
    destruct (r "time"%string) as [| | tm]; [discriminate | |];
      (split; [discriminate |]);
      (destruct (r "temperature"%string) as [| | tp]; try discriminate;
       destruct (float_of_str tp) as [t |] eqn:Hf; try discriminate;
       exists tp, t; repeat split; try assumption;
       destruct (is_food_stall t); injection H as <-; reflexivity).
  - intros [Ht (s & t & Hs & Hf & ->)]. rewrite Hs, Hf.
    destruct (r "time"%string) as [| | tm]; [contradiction | |];
      destruct (is_food_stall t); reflexivity.
Qed.

Lemma consume_row_raises (r : row) (e : error) :
  consume_row r = inr e <-> fails r e.
Proof.
  unfold consume_row, fails. split.
  - intros H.
    destruct (r "time"%string) as [| | tm] eqn:Ht;
      [injection H as <-; auto | |];
      (right;
       destruct (r "temperature"%string) as [| | tp] eqn:Hp;
       [injection H as <-; left; repeat split; discriminate
       | injection H as <-; right; left; repeat split; discriminate
       | destruct (float_of_str tp) as [t |] eqn:Hf;
         [destruct (is_food_stall t); discriminate
         | injection H as <-; right; right; split; [discriminate |];
           exists tp; auto]]).
  - intros [[Ht ->] | [(Ht & Hp & ->) | [(Ht & Hp & ->)
                                        | (Ht & s & Hp & Hf & ->)]]].
    + rewrite Ht. reflexivity.
    + rewrite Hp. destruct (r "time"%string); [contradiction | |];
        reflexivity.
    + rewrite Hp. destruct (r "time"%string); [contradiction | |];
        reflexivity.
    + rewrite Hp, Hf. destruct (r "time"%string); [contradiction | |];
        reflexivity.
Qed.

Lemma consume_rows_returns (rows : list row) :
  forall lines,
    consume_rows rows = (lines, None) <-> Forall2 logged rows lines.
Proof.
  induction rows as [| r rows IH]; intros lines; simpl.
  - split; [intros [= <-]; constructor | intros H; inversion H; reflexivity].
  - destruct (consume_row r) as [line | e] eqn:Hr.
    + destruct (consume_rows rows) as [lines' raised] eqn:Hrows. split.
      * intros [= <- ->]. constructor; [apply consume_row_returns, Hr |].
        apply IH. reflexivity.
      * intros H. inversion H as [| r0 l0 rows0 lines0 H1 H2]; subst.
        apply consume_row_returns in H1. rewrite Hr in H1.
        injection H1 as <-. apply IH in H2. injection H2 as <- <-.
        reflexivity.
    + split; [discriminate |].
      intros H. inversion H as [| r0 l0 rows0 lines0 H1 H2]; subst.
      apply consume_row_returns in H1. rewrite Hr in H1. discriminate.
Qed.

Lemma consume_rows_stops (good rest : list row) (bad : row)
    (lines : list log_line) (e : error) :
  Forall2 logged good lines ->
  fails bad e ->
  consume_rows (good ++ bad :: rest) = (lines, Some e).
Proof.
  intros Hgood Hbad. apply consume_row_raises in Hbad.
  induction Hgood as [| r line good lines Hr _ IH]; simpl.
  - rewrite Hbad. reflexivity.
  - apply consume_row_returns in Hr. rewrite Hr, IH. reflexivity.
Qed.

(** X15.  [consume_csv] ends without an exception exactly when the file
    was opened and read to its end and every row has a time column and a
    temperature that [float] accepts; it has then logged one line per row,
    in the order of the rows, each with the time and the temperature of its
    row, and the script ends with status 0 after its closing line. *)
Theorem consume_csv_complete (file : source) (lines : list log_line) :
  (consume_csv file = (lines, None)
   <-> exists rows, file = Rows rows /\ Forall2 logged rows lines)
  /\ (consume_csv file = (lines, None) ->
      main file = (Starting :: lines ++ [Finished], 0)).
Proof.
  split.
  - split.
    + destruct file as [| | rows | rows]; simpl; try discriminate.
      * intros H. exists rows. split; [reflexivity |].
        apply consume_rows_returns, H.
      * destruct (consume_rows rows) as [ls [e |]]; discriminate.
    + intros (rows & -> & H). simpl. apply consume_rows_returns, H.
  - intros H. unfold main. rewrite H. reflexivity.
Qed.

(** X16.  After rows that are logged, the first row without a time column
    ([KeyError]), without a temperature column ([KeyError]), with a
    temperature the line did not fill ([TypeError]) or with one [float]
    refuses ([ValueError]) ends the consumer with that exception, whether
    the reader would have failed later or not: the rows before it are
    logged, the rows after it are not read, no closing line is logged and
    the status is 1.  The same holds when the reader itself raises after
    rows that are logged. *)
Theorem consume_csv_stops_at_bad_row (good : list row)
    (lines : list log_line) :
  Forall2 logged good lines ->
  (forall bad e rest,
     fails bad e ->
     consume_csv (Rows (good ++ bad :: rest)) = (lines, Some e)
     /\ consume_csv (Broken (good ++ bad :: rest)) = (lines, Some e)
     /\ main (Rows (good ++ bad :: rest)) = (Starting :: lines, 1)
     /\ main (Broken (good ++ bad :: rest)) = (Starting :: lines, 1))
  /\ (consume_csv (Broken good) = (lines, Some ReaderError)
      /\ main (Broken good) = (Starting :: lines, 1)).
Proof.
  intros Hgood. split.
  - intros bad e rest Hbad.
    pose proof (consume_rows_stops good rest bad lines e Hgood Hbad) as H.
    unfold main. simpl. rewrite H. repeat split.
  - apply consume_rows_returns in Hgood. unfold main. simpl.
    rewrite Hgood. split; reflexivity.
Qed.

(** X17.  Whatever the file, every line the script logs for a row carries
    the verdict of [is_food_stall] on the temperature it shows, and the
    rows logged are never more than the rows read. *)
Theorem logged_lines_well_classified (file : source) :
  Forall well_classified (fst (main file))
  /\ (forall rows, file = Rows rows ->
        (length (fst (consume_csv file)) <= length rows)%nat).
Proof.
  assert (Hrows : forall rows,
            Forall well_classified (fst (consume_rows rows))
            /\ (length (fst (consume_rows rows)) <= length rows)%nat).
  { induction rows as [| r rows [IH1 IH2]]; simpl; [split; [constructor | lia] |].
    destruct (consume_row r) as [line | e] eqn:Hr;
      [| split; [constructor | simpl; lia]].
    destruct (consume_rows rows) as [lines raised]. simpl in IH1, IH2 |- *.
    split; [| lia]. constructor; [| exact IH1].
    unfold consume_row in Hr.
    destruct (r "time"%string) as [| | tm]; [discriminate | |];
      (destruct (r "temperature"%string) as [| | tp]; try discriminate;
       destruct (float_of_str tp) as [t |]; try discriminate;
       destruct (is_food_stall t) eqn:Hs; injection Hr as <-; exact Hs). }
  split.
  - unfold main, consume_csv.
    destruct file as [| | rows | rows]; try (repeat constructor).
    + destruct (Hrows rows) as [H _].
      destruct (consume_rows rows) as [lines [e |]]; simpl in H |- *.
      * constructor; [exact I | exact H].
      * constructor; [exact I |]. apply Forall_app. split; [exact H |].
        repeat constructor.
    + destruct (Hrows rows) as [H _].
      destruct (consume_rows rows) as [lines [e |]]; simpl in H |- *;
        (constructor; [exact I | exact H]).
  - intros rows ->. apply Hrows.
Qed.

End Rows.

(** * The further properties at concrete configurations *)

Section MoreRuns.

#[local] Existing Instance reference.
#[local] Existing Instance reference_float.

Local Open Scope nat_scope.


Lemma pass_yields_loaded_entries_witness :
  nth_next (rewritten two_messages "[]") 0 1 (GenFile 0 [])
    = ([OpenFile 0], Yielded (msg "b") (GenFile 1 [])).
Proof.
  assert (Hl : load_entries (data_file (rewritten two_messages "[]") 0)
               = inl [msg "a"; msg "b"]) by (vm_compute; reflexivity).
  destruct (pass_yields_loaded_entries (rewritten two_messages "[]") 0 0
              [msg "a"; msg "b"] Hl) as [H _].
  apply (H 1). simpl. lia.
Defined.

Lemma negative_interval_stops_after_one_send_witness :
  delivery_loop (quiet two_messages) "buzz" (-1) 1 0 generate_messages
    = Exited 0 ([OpenFile 0] ++ [Send "buzz" (msg "a"); Close]).
Proof.
  apply (negative_interval_stops_after_one_send (quiet two_messages) "buzz"
           (-1) 0 0 generate_messages (GenFile 1 [msg "b"])).
  - lia.
  - reflexivity.
  - reflexivity.
  - vm_compute. reflexivity.
Defined.

Lemma clean_exit_closed_producer_witness :
  exists evs,
    [CheckExists; CreateProducer; CreateTopic "unknown_topic"; OpenFile 0;
     Send "unknown_topic" (msg "a"); Close] = evs ++ [Close]
    /\ closes evs = 0.
Proof.
  apply (clean_exit_closed_producer
           (with_faults (fun _ => true) (fun _ => None) (quiet two_messages))
           1).
  - reflexivity.
  - vm_compute. reflexivity.
Defined.

Lemma status_two_means_invalid_json_witness :
  truthy (get_custom_message (quiet "{")) = false
  /\ data_file_exists (quiet "{") = true
  /\ exists k text,
       data_file (quiet "{") k = Content text /\ json_loads text = None.
Proof.
  apply (status_two_means_invalid_json (quiet "{") 1
           [CheckExists; CreateProducer; CreateTopic "unknown_topic";
            OpenFile 0; Close]).
  - reflexivity.
  - vm_compute. reflexivity.
Defined.

Lemma overlong_interval_stops_after_one_send_witness :
  delivery_loop (quiet two_messages) "buzz" 10000000000 1 0 generate_messages
    = Exited 0 ([OpenFile 0] ++ [Send "buzz" (msg "a"); Close]).
Proof.
  apply (overlong_interval_stops_after_one_send (quiet two_messages) "buzz"
           10000000000 0 0 generate_messages (GenFile 1 [msg "b"])).
  - unfold sleep_max. lia.
  - reflexivity.
  - reflexivity.
  - vm_compute. reflexivity.
Defined.

(** The whole run with ten thousand million seconds between sends. *)
Example overlong_interval_run :
  main (with_interval "10000000000" (quiet two_messages)) 9 =
    Exited 0 [CheckExists; CreateProducer; CreateTopic "unknown_topic";
              OpenFile 0; Send "unknown_topic" (msg "a"); Close].
Proof. vm_compute. reflexivity. Qed.

Lemma falsy_custom_message_is_ignored_witness :
  main (with_custom_message "0" (quiet two_messages)) 4
    = main (without_custom_message
              (with_custom_message "0" (quiet two_messages))) 4.
Proof.
  apply (falsy_custom_message_is_ignored
           (with_custom_message "0" (quiet two_messages)) 4).
  vm_compute. reflexivity.
Defined.


Lemma is_food_stall_range_witness :
  Consumer.is_food_stall f180 = true.
Proof.
  apply (is_food_stall_range false 6333186975989760 (-45)).
  - vm_compute. reflexivity.
  - split; [reflexivity |]. vm_compute. split; discriminate.
Defined.

Lemma is_food_stall_positive_finite_witness :
  exists m e, f180 = S754_finite false m e.
Proof.
  apply (is_food_stall_positive_finite f180). vm_compute. reflexivity.
Defined.

Lemma consume_csv_stops_at_bad_row_witness :
  Consumer.main
    (Consumer.Rows
       ([reading "0" "160"] ++ reading "1" "hot" :: [reading "2" "170"]))
    = ([Consumer.Starting; Consumer.InStallRange (Some "0"%string) f160], 1%Z)
  /\ Consumer.consume_csv
       (Consumer.Rows
          ([reading "0" "160"] ++ (fun _ => Consumer.Absent) :: []))
     = ([Consumer.InStallRange (Some "0"%string) f160],
        Some (Consumer.KeyError "time"))
  /\ Consumer.consume_csv
       (Consumer.Rows ([reading "0" "160"] ++ short_row :: []))
     = ([Consumer.InStallRange (Some "0"%string) f160],
        Some Consumer.TypeError)
  /\ Consumer.main (Consumer.Broken [reading "0" "160"])
     = ([Consumer.Starting; Consumer.InStallRange (Some "0"%string) f160], 1%Z).
Proof.
  assert (Hgood : Forall2 Consumer.logged [reading "0" "160"]
                    [Consumer.InStallRange (Some "0"%string) f160]).
  { constructor; [| constructor]. split; [discriminate |].
    exists "160"%string, f160. repeat split; vm_compute; reflexivity. }
  destruct (consume_csv_stops_at_bad_row [reading "0" "160"]
              [Consumer.InStallRange (Some "0"%string) f160] Hgood)
    as [Hbad Hreader].
  split; [| split; [| split]].
  - apply (Hbad (reading "1" "hot") Consumer.ValueError [reading "2" "170"]).
    right. right. right. split; [discriminate |].
    exists "hot"%string. repeat split; vm_compute; reflexivity.
  - apply (Hbad (fun _ => Consumer.Absent) (Consumer.KeyError "time") []).
    left. split; reflexivity.
  - apply (Hbad short_row Consumer.TypeError []).
    right. right. left. repeat split. discriminate.
  - apply Hreader.
Defined.

(** The consumer on a short file, and on rows that lack a column. *)
Example consumer_run :
  Consumer.main
    (Consumer.Rows [reading "0" "149.9"; reading "1" "160";
                    reading "2" "190"; reading "3" "190.5"; reading "4" "nan"])
    = ([Consumer.Starting;
        Consumer.NoStallDetected (Some "0"%string)
          (S754_finite false 5274137376115917 (-45));
        Consumer.InStallRange (Some "1"%string) f160;
        Consumer.InStallRange (Some "2"%string)
          (S754_finite false 6685030696878080 (-45));
        Consumer.NoStallDetected (Some "3"%string)
          (S754_finite false 6702622882922496 (-45));
        Consumer.NoStallDetected (Some "4"%string) S754_nan;
        Consumer.Finished], 0%Z).
Proof. vm_compute. reflexivity. Qed.

Example consumer_missing_columns :
  Consumer.consume_row (fun _ => Consumer.Absent)
    = inr (Consumer.KeyError "time")
  /\ Consumer.consume_row
       (fun key => if (key =? "time")%string then Consumer.Blank
                   else Consumer.Absent)
     = inr (Consumer.KeyError "temperature")
  /\ Consumer.consume_row
       (fun key => if (key =? "time")%string then Consumer.Blank
                   else Consumer.Blank)
     = inr Consumer.TypeError
  /\ Consumer.main Consumer.NoFile = ([Consumer.Starting], 1%Z).
Proof. repeat split. Qed.

End MoreRuns.
